(** * scikit-fda: sample generators, neighbors base classes, linear smoother

    A shallow embedding of
    - [skfda/datasets/_samples_generators.py],
    - [skfda/ml/_neighbors_base.py],
    - [skfda/preprocessing/smoothing/_linear.py],
    followed by the properties proved about them.

    Conventions.
    - A numpy [float64] is an extended real ([xreal]): finite values are
      exact reals (rounding and signed zeros are not modelled), and the
      results of invalid operations are the IEEE special values.
    - A numpy array is a nested list, outermost axis first, unless a
      definition says otherwise.
    - A Python exception is a value of [exn]; code that can raise returns
      a [result]. *)

From Stdlib Require Import Reals Lra Lia.
From stdpp Require Import base option list gmap strings.

(** ** Part I. The embedding *)

(** *** numpy scalars *)

Inductive xreal : Type :=
| Fin (r : R)
| Inf (neg : bool)
| NaN.

#[global] Instance xreal_inhabited : Inhabited xreal := populate (Fin 0).

#[global] Instance R_eq_dec : EqDecision R := Req_dec_T.

(** The comparisons of real numbers decide, they do not compute. *)
#[global] Arguments Req_dec_T : simpl never.
#[global] Arguments Rlt_dec : simpl never.
#[global] Arguments R_eq_dec : simpl never.

Definition Rneg (r : R) : bool := if Rlt_dec r 0 then true else false.

Definition xneg (x : xreal) : xreal :=
  match x with
  | Fin a => Fin (- a)
  | Inf s => Inf (negb s)
  | NaN => NaN
  end.

Definition xadd (x y : xreal) : xreal :=
  match x, y with
  | Fin a, Fin b => Fin (a + b)
  | Fin _, Inf t => Inf t
  | Inf s, Fin _ => Inf s
  | Inf s, Inf t => if Bool.eqb s t then Inf s else NaN
  | _, _ => NaN
  end.

Definition xsub (x y : xreal) : xreal := xadd x (xneg y).

Definition xmul (x y : xreal) : xreal :=
  match x, y with
  | Fin a, Fin b => Fin (a * b)
  | Fin a, Inf t => if Req_dec_T a 0 then NaN else Inf (xorb (Rneg a) t)
  | Inf s, Fin b => if Req_dec_T b 0 then NaN else Inf (xorb s (Rneg b))
  | Inf s, Inf t => Inf (xorb s t)
  | _, _ => NaN
  end.

(** [x / y]: a zero divisor gives [nan] for [0 / 0] and an infinity
    otherwise; numpy warns and carries on, it does not raise. *)
Definition xdiv (x y : xreal) : xreal :=
  match x, y with
  | Fin a, Fin b =>
      if Req_dec_T b 0
      then (if Req_dec_T a 0 then NaN else Inf (Rneg a))
      else Fin (a / b)
  | Fin _, Inf _ => Fin 0
  | Inf s, Fin b => Inf (xorb s (Rneg b))
  | _, _ => NaN
  end.

Definition xsqrt (x : xreal) : xreal :=
  match x with
  | Fin a => if Rlt_dec a 0 then NaN else Fin (sqrt a)
  | Inf false => Inf false
  | _ => NaN
  end.

Definition xsin (x : xreal) : xreal :=
  match x with Fin a => Fin (sin a) | _ => NaN end.

Definition xcos (x : xreal) : xreal :=
  match x with Fin a => Fin (cos a) | _ => NaN end.

(** [np.square] *)
Definition xsquare (x : xreal) : xreal := xmul x x.

(** [x == y] on floats: [nan] equals nothing. *)
Definition xeqb (x y : xreal) : bool :=
  match x, y with
  | Fin a, Fin b => if Req_dec_T a b then true else false
  | Inf s, Inf t => Bool.eqb s t
  | _, _ => false
  end.

(** [x <= y] on floats: every comparison with [nan] is false. *)
Definition xle (x y : xreal) : Prop :=
  match x, y with
  | Fin a, Fin b => (a <= b)%R
  | Fin _, Inf t => t = false
  | Inf s, Fin _ => s = true
  | Inf s, Inf t => s = true \/ t = false
  | _, _ => False
  end.

Definition is_finite (x : xreal) : Prop :=
  match x with Fin _ => True | _ => False end.

Definition is_nan (x : xreal) : Prop :=
  match x with NaN => True | _ => False end.

Definition xnat (n : nat) : xreal := Fin (INR n).

(** *** Python exceptions *)

(** A [ValueError] carries its message and the values formatted into
    it, in the order of the replacement fields. *)
Inductive exn : Type :=
| ValueError (msg : string) (fields : list nat)
| AttributeError (attr : string)
| IndexError
| AssertionError
| NotFittedError
| ZeroDivisionError.

Inductive result (A : Type) : Type :=
| Ok (a : A)
| Raise (e : exn).
Arguments Ok {A} a.
Arguments Raise {A} e.

#[global] Instance result_ret : MRet result := fun A a => Ok a.
#[global] Instance result_bind : MBind result := fun A B f m =>
  match m with
  | Ok a => f a
  | Raise e => Raise e
  end.
#[global] Instance result_fmap : FMap result := fun A B f m =>
  match m with
  | Ok a => Ok (f a)
  | Raise e => Raise e
  end.

Definition broadcast_error : exn :=
  ValueError "operands could not be broadcast together" [].

(** *** numpy arrays *)

Abbreviation vector := (list xreal).
Abbreviation matrix := (list (list xreal)).
Abbreviation tensor := (list (list (list xreal))).

(** An array whose number of axes is only known at run time. *)
Inductive ndarray : Type :=
| Arr0 (x : xreal)
| Arr1 (v : vector)
| Arr2 (m : matrix)
| Arr3 (t : tensor).

Definition ndim (a : ndarray) : nat :=
  match a with Arr0 _ => 0 | Arr1 _ => 1 | Arr2 _ => 2 | Arr3 _ => 3 end.

(** [a.shape]; the inner sizes are read off the first element. *)
Definition shape (a : ndarray) : list nat :=
  match a with
  | Arr0 _ => []
  | Arr1 v => [length v]
  | Arr2 m => [length m; length (default [] (head m))]
  | Arr3 t =>
      [length t; length (default [] (head t));
       length (default [] (head (default [] (head t))))]
  end.

(** [np.atleast_1d] *)
Definition atleast_1d (a : ndarray) : ndarray :=
  match a with Arr0 x => Arr1 [x] | _ => a end.

(** [np.sum] of a 1-D array *)
Definition xsum (v : vector) : xreal := foldr xadd (Fin 0) v.

Definition zeros1 (n : nat) : vector := replicate n (Fin 0).
Definition ones1 (n : nat) : vector := replicate n (Fin 1).
Definition zeros2 (n m : nat) : matrix := replicate n (zeros1 m).
Definition ones2 (n m : nat) : matrix := replicate n (ones1 m).
Definition zeros3 (n m k : nat) : tensor := replicate n (zeros2 m k).

(** [np.eye(n, m)] *)
Definition eye (n m : nat) : matrix :=
  (fun i => (fun j => if Nat.eqb i j then Fin 1 else Fin 0) <$> seq 0 m)
    <$> seq 0 n.

(** [a[-1] = x] on a 1-D array; nothing to set in an empty one. *)
Definition set_last {A} (l : list A) (x : A) : list A :=
  <[pred (length l) := x]> l.

(** [np.linspace(start, stop, num)], as numpy computes it: the step is
    [(stop - start) / (num - 1)], the points are [i * step + start], and
    the last point is overwritten with [stop]. *)
Definition linspace (start stop : xreal) (num : nat) : vector :=
  let div := (num - 1)%nat in
  let delta := xsub stop start in
  let step := if Nat.ltb 0 div then xdiv delta (xnat div) else delta in
  let y := (fun i => xadd (xmul (xnat i) step) start) <$> seq 0 num in
  if Nat.ltb 1 num then set_last y stop else y.

(** Broadcasting of one axis: equal sizes, or one of them is 1. *)
Definition bdim (n m : nat) : result nat :=
  if Nat.eqb n m then Ok n
  else if Nat.eqb n 1 then Ok m
  else if Nat.eqb m 1 then Ok n
  else Raise broadcast_error.

Definition stretch {A} (n : nat) (l : list A) : list A :=
  match l with
  | [x] => replicate n x
  | _ => l
  end.

Definition broadcast1 (op : xreal -> xreal -> xreal) (u v : vector)
  : result vector :=
  n ← bdim (length u) (length v);
  mret (zip_with op (stretch n u) (stretch n v)).

Definition broadcast2 (op : xreal -> xreal -> xreal) (a b : matrix)
  : result matrix :=
  n ← bdim (length a) (length b);
  mapM (fun p => broadcast1 op p.1 p.2)
       (zip (stretch n a) (stretch n b)).

Definition broadcast3 (op : xreal -> xreal -> xreal) (a b : tensor)
  : result tensor :=
  n ← bdim (length a) (length b);
  mapM (fun p => broadcast2 op p.1 p.2)
       (zip (stretch n a) (stretch n b)).

(** Broadcasting prepends unit axes to the shorter shape. *)
Definition to3 (a : ndarray) : tensor :=
  match a with
  | Arr0 x => [[[x]]]
  | Arr1 v => [[v]]
  | Arr2 m => [m]
  | Arr3 t => t
  end.

Definition to2 (a : ndarray) : option matrix :=
  match a with
  | Arr0 x => Some [[x]]
  | Arr1 v => Some [v]
  | Arr2 m => Some m
  | Arr3 _ => None
  end.

Definition to1 (a : ndarray) : option vector :=
  match a with
  | Arr0 x => Some [x]
  | Arr1 v => Some v
  | _ => None
  end.

(** Elementwise binary operation on arrays, with broadcasting; the
    result has as many axes as the operand with more of them. *)
Definition nd_binop (op : xreal -> xreal -> xreal) (a b : ndarray)
  : result ndarray :=
  match Nat.max (ndim a) (ndim b) with
  | 0 =>
      match a, b with
      | Arr0 x, Arr0 y => Ok (Arr0 (op x y))
      | _, _ => Raise broadcast_error
      end
  | 1 =>
      match to1 a, to1 b with
      | Some u, Some v => Arr1 <$> broadcast1 op u v
      | _, _ => Raise broadcast_error
      end
  | 2 =>
      match to2 a, to2 b with
      | Some m, Some n => Arr2 <$> broadcast2 op m n
      | _, _ => Raise broadcast_error
      end
  | _ => Arr3 <$> broadcast3 op (to3 a) (to3 b)
  end.

Definition nd_add := nd_binop xadd.
Definition nd_mul := nd_binop xmul.

(** *** The discretized-function container *)

(** [FDataGrid]: the grid (one coordinate array per domain dimension)
    and the data matrix, indexed [sample][grid point][codomain]. The
    class itself is outside these sources; only what the functions below
    read and write is kept. *)
Record SplineInterpolation : Type := {
  interpolation_order : nat;
  monotone : bool;
}.

Record FDataGrid : Type := {
  grid_points : list vector;
  data_matrix : tensor;
  domain_range : option (xreal * xreal);
  interpolation : option SplineInterpolation;
}.

(** Reading an instance attribute that may not have been set yet. *)
Definition getattr {A} (name : string) (o : option A) : result A :=
  match o with
  | Some a => Ok a
  | None => Raise (AttributeError name)
  end.

(** [np.array_equal] of two 1-D arrays: same length and equal entries. *)
Definition array_equal (u v : vector) : bool :=
  Nat.eqb (length u) (length v) && forallb (fun p => xeqb p.1 p.2) (zip u v).

(** [a @ b] for two 2-D arrays: the rows of [a] must be as long as [b]
    has rows. *)
Definition matmul (a b : matrix) : result matrix :=
  if forallb (fun row : vector => Nat.eqb (length row) (length b)) a
  then
    Ok ((fun row : vector =>
           (fun j => xsum (zip_with (fun x (brow : vector) =>
                                       xmul x (default (Fin 0) (brow !! j)))
                                    row b))
             <$> seq 0 (length (default [] (head b))))
          <$> a)
  else Raise (ValueError "matmul: Input operand 1 has a mismatch in its core dimension 0" []).

(** *** [skfda/preprocessing/smoothing/_linear.py] *)

Module Linear.

Abbreviation GridPoints := (list vector).

Record _LinearSmoother : Type := {
    output_points : option GridPoints;
    input_points_ : option GridPoints;
    output_points_ : option GridPoints;
    hat_matrix_ : option matrix;
  }.

(** What the base class takes from outside these sources: the
    abstract method [_hat_matrix] of the concrete smoother, the helper
    [_to_grid_points] it imports, and the validation the container runs
    in [X.copy(data_matrix=..., grid_points=...)], which raises when the
    new values and grid do not fit [X] (a grid that leaves the domain
    range of [X], for one). *)
Class Smoother : Type := {
  _hat_matrix : _LinearSmoother -> GridPoints -> GridPoints -> result matrix;
  _to_grid_points : GridPoints -> GridPoints;
  copy_validate : FDataGrid -> tensor -> GridPoints -> result unit;
}.

Section Methods.
Context `{Smoother}.

Definition hat_matrix (self : _LinearSmoother)
        (input_points output_points : option GridPoints) : result matrix :=
      (* Use the fitted points if they are not provided *)
      input_points ←
        match input_points with
        | None => getattr "input_points_" (input_points_ self)
        | Some p => Ok p
        end;
      output_points ←
        match output_points with
        | None => getattr "output_points_" (output_points_ self)
        | Some p => Ok p
        end;
      fitted_in ← getattr "input_points_" (input_points_ self);
      fitted_out ← getattr "output_points_" (output_points_ self);
      _hat_matrix self fitted_in fitted_out.

Definition fit (self : _LinearSmoother) (X : FDataGrid)
      : result _LinearSmoother :=
      let self1 :=
        {| output_points := output_points self;
           input_points_ := Some (grid_points X);
           output_points_ :=
             Some (match output_points self with
                   | Some p => _to_grid_points p
                   | None => grid_points X
                   end);
           hat_matrix_ := hat_matrix_ self |} in
      m ← hat_matrix self1 None None;
      mret {| output_points := output_points self1;
              input_points_ := input_points_ self1;
              output_points_ := output_points_ self1;
              hat_matrix_ := Some m |}.

(** Multiply the hat matrix with the function values to smooth them.
    The assertion pairs the fitted grid arrays with those of [X] as
    [zip] does, up to the shorter of the two lists. *)
Definition transform (self : _LinearSmoother) (X : FDataGrid)
  : result FDataGrid :=
  fitted_in ← getattr "input_points_" (input_points_ self);
  if negb (forallb (fun p => array_equal p.1 p.2) (zip fitted_in (grid_points X)))
  then Raise AssertionError
  else
    m ← hat_matrix self None None;
    d ← mapM (matmul m) (data_matrix X);
    fitted_out ← getattr "output_points_" (output_points_ self);
    _ ← copy_validate X d fitted_out;
    mret {| grid_points := fitted_out; data_matrix := d;
            domain_range := domain_range X;
            interpolation := interpolation X |}.

End Methods.

(** The attributes [fit] sets are present. *)
Definition fitted (self : _LinearSmoother) : Prop :=
    is_Some (input_points_ self) /\ is_Some (output_points_ self).

End Linear.

(** *** [skfda/ml/_neighbors_base.py] *)

Module Neighbors.

(** Mutable Python objects live in a store and are passed by
    reference; two names for one array are two copies of one [loc]. *)
Abbreviation loc := nat.

(** One functional observation: its values, [grid point][codomain]. *)
Abbreviation sample := (list (list xreal)).

Inductive pyobj : Type :=
| PArr (v : vector)
| PMat (m : matrix)
| PFData (fd : FDataGrid).

Abbreviation heap := (gmap nat pyobj).

Definition alloc (o : pyobj) (h : heap) : loc * heap :=
  let l := fresh (dom h) in (l, <[l := o]> h).

(** [copy.deepcopy(x)]: a new object with the same contents. *)
Definition deepcopy (l : loc) (h : heap) : loc * heap :=
  match h !! l with
  | Some o => alloc o h
  | None => (l, h)
  end.

(** [copy.deepcopy(y)] where [y] may be [None]. *)
Definition deepcopy_opt (y : option loc) (h : heap) : option loc * heap :=
  match y with
  | Some l => let '(l', h') := deepcopy l h in (Some l', h')
  | None => (None, h)
  end.

(** [isinstance(y, FData)] *)
Definition is_fdata (y : option loc) (h : heap) : bool :=
  match y with
  | Some l => match h !! l with Some (PFData _) => true | _ => false end
  | None => false
  end.

(** The observations of an input, one per sample. *)
Definition samples_of (o : pyobj) : list sample :=
  match o with
  | PArr v => (fun x => [[x]]) <$> v
  | PMat m => (fun r => [r]) <$> m
  | PFData fd => data_matrix fd
  end.

(** [len(X)] *)
Definition len (o : pyobj) : nat := length (samples_of o).

Definition load_vector (l : loc) (h : heap) : vector :=
  match h !! l with Some (PArr v) => v | _ => [] end.

Abbreviation Metric := (sample -> sample -> xreal).

(** [self.metric]: the string ['precomputed'] or a metric. *)
Inductive metric_t : Type :=
| precomputed
| metric_fn (d : Metric).

(** [self.weights]. A callable is handed the array of distances by
    reference and returns an array, which may be the one it was
    given. *)
Inductive weights_t : Type :=
| uniform
| distance
| weights_fn (f : loc -> heap -> loc * heap).

(** Modelled from the spec: [PairwiseMetric] (skfda.misc.metrics._utils)
    is not among the sources. Section 6 gives its contract: called on
    [X] it returns the matrix of distances between the samples of [X],
    called on [(X, Y)] the matrix of distances from each sample of [X]
    to each sample of [Y]. *)
Definition PairwiseMetric (d : Metric) (X Y : list sample) : matrix :=
  (fun x => d x <$> Y) <$> X.

(** [sklearn.neighbors.NearestNeighbors] with [metric="precomputed"]:
    its parameters, and what [fit] was last given. *)
Record SkEstimator : Type := {
  sk_n_neighbors : option nat;
  sk_radius : option xreal;
  sk_algorithm : string;
  sk_leaf_size : nat;
  sk_n_jobs : option nat;
  sk_fit_X : option matrix;
  sk_fit_y : option pyobj;
}.

(** What [NearestNeighbors.fit(X, y)] records when it accepts its
    input. *)
Definition sk_record (e : SkEstimator) (X : matrix) (y : option pyobj)
  : SkEstimator :=
  {| sk_n_neighbors := sk_n_neighbors e; sk_radius := sk_radius e;
     sk_algorithm := sk_algorithm e; sk_leaf_size := sk_leaf_size e;
     sk_n_jobs := sk_n_jobs e;
     sk_fit_X := Some X; sk_fit_y := Some (default (PArr []) y) |}.

(** What a neighbor query returns: indices, with distances when
    [return_distance] is true. *)
Record Query : Type := {
  q_distances : option matrix;
  q_indices : list (list nat);
}.

(** The collaborators that are not part of these sources: sklearn's
    validation of what [fit] is given (a precomputed matrix that is not
    square, has no sample, or holds a negative or [nan] distance is
    rejected with an exception, among others), the queries of the
    sklearn index, the metric fitting helper, the subclass hook
    [_query], and the numerical routines used by [score]. *)
Class Collaborators : Type := {
  sk_validate : SkEstimator -> matrix -> option pyobj -> result unit;
  sk_kneighbors :
    SkEstimator -> option matrix -> option nat -> bool -> result Query;
  sk_kneighbors_graph :
    SkEstimator -> option matrix -> option nat -> string -> result matrix;
  sk_radius_neighbors :
    SkEstimator -> option matrix -> option xreal -> bool -> result Query;
  sk_radius_neighbors_graph :
    SkEstimator -> option matrix -> option xreal -> string -> result matrix;
  sk_predict : SkEstimator -> matrix -> result pyobj;
  sk_predict_proba : SkEstimator -> matrix -> result matrix;
  _fit_metric : Metric -> list sample -> Metric;
  r2_score : pyobj -> pyobj -> option vector -> xreal;
  simps : vector -> vector -> xreal;
}.

Record Estimator : Type := {
  n_neighbors : option nat;
  radius : option xreal;
  weights : weights_t;
  algorithm : string;
  leaf_size : nat;
  metric : metric_t;
  n_jobs : option nat;
  outlier_response : option FDataGrid;
  (* attributes set by [fit] *)
  _estimator : option SkEstimator;
  _fitted_with_distances : option bool;
  _fit_X : option loc;
  _fit_y : option (option loc);
  _functional : option bool;
}.

Definition set__estimator (v : SkEstimator) (s : Estimator) : Estimator :=
  {| n_neighbors := n_neighbors s; radius := radius s; weights := weights s;
     algorithm := algorithm s; leaf_size := leaf_size s; metric := metric s;
     n_jobs := n_jobs s; outlier_response := outlier_response s;
     _estimator := Some v;
     _fitted_with_distances := _fitted_with_distances s;
     _fit_X := _fit_X s; _fit_y := _fit_y s; _functional := _functional s |}.

Definition set__fitted_with_distances (v : bool) (s : Estimator) : Estimator :=
  {| n_neighbors := n_neighbors s; radius := radius s; weights := weights s;
     algorithm := algorithm s; leaf_size := leaf_size s; metric := metric s;
     n_jobs := n_jobs s; outlier_response := outlier_response s;
     _estimator := _estimator s;
     _fitted_with_distances := Some v;
     _fit_X := _fit_X s; _fit_y := _fit_y s; _functional := _functional s |}.

Definition set__fit_X (v : loc) (s : Estimator) : Estimator :=
  {| n_neighbors := n_neighbors s; radius := radius s; weights := weights s;
     algorithm := algorithm s; leaf_size := leaf_size s; metric := metric s;
     n_jobs := n_jobs s; outlier_response := outlier_response s;
     _estimator := _estimator s;
     _fitted_with_distances := _fitted_with_distances s;
     _fit_X := Some v; _fit_y := _fit_y s; _functional := _functional s |}.

Definition set__fit_y (v : option loc) (s : Estimator) : Estimator :=
  {| n_neighbors := n_neighbors s; radius := radius s; weights := weights s;
     algorithm := algorithm s; leaf_size := leaf_size s; metric := metric s;
     n_jobs := n_jobs s; outlier_response := outlier_response s;
     _estimator := _estimator s;
     _fitted_with_distances := _fitted_with_distances s;
     _fit_X := _fit_X s; _fit_y := Some v; _functional := _functional s |}.

Definition set__functional (v : bool) (s : Estimator) : Estimator :=
  {| n_neighbors := n_neighbors s; radius := radius s; weights := weights s;
     algorithm := algorithm s; leaf_size := leaf_size s; metric := metric s;
     n_jobs := n_jobs s; outlier_response := outlier_response s;
     _estimator := _estimator s;
     _fitted_with_distances := _fitted_with_distances s;
     _fit_X := _fit_X s; _fit_y := _fit_y s; _functional := Some v |}.

Definition set_metric (v : metric_t) (s : Estimator) : Estimator :=
  {| n_neighbors := n_neighbors s; radius := radius s; weights := weights s;
     algorithm := algorithm s; leaf_size := leaf_size s; metric := v;
     n_jobs := n_jobs s; outlier_response := outlier_response s;
     _estimator := _estimator s;
     _fitted_with_distances := _fitted_with_distances s;
     _fit_X := _fit_X s; _fit_y := _fit_y s; _functional := _functional s |}.

(** [NeighborsBase.__init__]: only the parameters are set. *)
Definition __init__ (n_neighbors : option nat) (radius : option xreal)
    (weights : weights_t) (algorithm : string) (leaf_size : nat)
    (metric : metric_t) (n_jobs : option nat)
    (outlier_response : option FDataGrid) : Estimator :=
  {| n_neighbors := n_neighbors; radius := radius; weights := weights;
     algorithm := algorithm; leaf_size := leaf_size; metric := metric;
     n_jobs := n_jobs; outlier_response := outlier_response;
     _estimator := None; _fitted_with_distances := None;
     _fit_X := None; _fit_y := None; _functional := None |}.

(** Arithmetic of the function container, sample by sample. *)
Definition sample_map2 (op : xreal -> xreal -> xreal) (a b : sample) : sample :=
  zip_with (zip_with op) a b.

Definition sample_map (f : xreal -> xreal) (a : sample) : sample :=
  (fun r : vector => f <$> r) <$> a.

(** [X.sum()] over the samples, left to right. *)
Definition fd_sum (l : list sample) : sample :=
  match l with
  | [] => []
  | s :: r => foldl (sample_map2 xadd) s r
  end.

(** [X.mean()] *)
Definition fd_mean (l : list sample) : sample :=
  sample_map (fun x => xdiv x (xnat (length l))) (fd_sum l).

(** [X.copy(data_matrix=d)] *)
Definition with_data (fd : FDataGrid) (d : list sample) : FDataGrid :=
  {| grid_points := grid_points fd; data_matrix := d;
     domain_range := domain_range fd; interpolation := interpolation fd |}.

(** [X[idx]] for an array of sample indices. *)
Definition fd_take (fd : FDataGrid) (idx : list nat) : result FDataGrid :=
  d ← mapM (fun i => match data_matrix fd !! i with
                     | Some s => Ok s
                     | None => Raise IndexError
                     end) idx;
  mret (with_data fd d).

(** [X * weights]: sample [i] is scaled by [weights[i]]. *)
Definition fd_scale (fd : FDataGrid) (w : vector) : result FDataGrid :=
  if Nat.eqb (length w) (length (data_matrix fd))
  then Ok (with_data fd (zip_with (fun c => sample_map (xmul c)) w (data_matrix fd)))
  else Raise broadcast_error.

(** [y.dim_domain] and [y.dim_codomain] *)
Definition dim_domain (y : FDataGrid) : nat := length (grid_points y).

Definition dim_codomain (y : FDataGrid) : nat :=
  length (default [] (head (default [] (head (data_matrix y))))).

(** Two grids are equal when they have as many axes and equal
    coordinate arrays. *)
Definition grid_points_equal (ga gb : list vector) : bool :=
  Nat.eqb (length ga) (length gb)
  && forallb (fun p => array_equal p.1 p.2) (zip ga gb).

(** [pred.concatenate(new_pred)]. The method is the container's,
    outside these sources: it refuses, with a [ValueError], an argument
    whose grid points are not those of [pred] or whose values have
    another codomain dimension, and otherwise appends the
    observations. *)
Definition concatenate (a b : FDataGrid) : result FDataGrid :=
  if negb (grid_points_equal (grid_points a) (grid_points b))
  then Raise (ValueError "Grid points for both objects must be equal" [])
  else if negb (Nat.eqb (dim_codomain a) (dim_codomain b))
  then Raise (ValueError "all the input array dimensions except for the concatenation axis must match exactly" [])
  else Ok (with_data a (data_matrix a ++ data_matrix b)).

(** [a[mask] = x] for a boolean mask as long as [a]. *)
Definition mask_assign (mask : list bool) (x : xreal) (a : vector) : vector :=
  zip_with (fun (b : bool) y => if b then x else y) mask a.

(** [np.where(mask)[0]] *)
Definition np_where (mask : list bool) : list nat :=
  omap (fun p : nat * bool => if p.2 then Some p.1 else None)
       (zip (seq 0 (length mask)) mask).

Definition no_neighbors_message : string :=
  "No neighbors found for test samples  {index}, you can try using larger radius, give a reponse for outliers, or consider removing them from your dataset.".

Section Methods.
Context `{Collaborators}.

(** The subclass hook [_query]: the distances to and the indices of
    the neighbors of every sample of [X]. *)
Variable _query : Estimator -> pyobj -> heap -> result (matrix * list (list nat)).

Definition _check_is_fitted (self : Estimator) : result unit :=
  match _estimator self with
  | Some _ => Ok tt
  | None => Raise NotFittedError
  end.

Definition _init_estimator (self : Estimator) : SkEstimator :=
  {| sk_n_neighbors := n_neighbors self; sk_radius := radius self;
     sk_algorithm := algorithm self; sk_leaf_size := leaf_size self;
     sk_n_jobs := n_jobs self; sk_fit_X := None; sk_fit_y := None |}.

Definition load (l : loc) (h : heap) : pyobj := default (PArr []) (h !! l).

Definition load_opt (y : option loc) (h : heap) : option pyobj :=
  l ← y; h !! l.

Definition as_matrix (o : pyobj) : matrix :=
  match o with
  | PMat m => m
  | PArr v => [v]
  | PFData _ => []
  end.

(** [NearestNeighbors.fit(X, y)]: the input is validated first, and
    recorded if it is accepted. *)
Definition sk_fit (e : SkEstimator) (X : matrix) (y : option pyobj)
  : result SkEstimator :=
  _ ← sk_validate e X y; mret (sk_record e X y).

(** [self._estimator.fit(X, y)] on the index object [est] that
    [self._estimator] refers to: it is updated in place, and left as it
    was when [fit] raises. *)
Definition estimator_fit (self : Estimator) (est : SkEstimator) (X : matrix)
    (y : option pyobj) : result unit * Estimator :=
  match sk_fit est X y with
  | Ok est' => (Ok tt, set__estimator est' self)
  | Raise e => (Raise e, self)
  end.

(** The outcome comes with the estimator as the call leaves it: the
    assignments made before an exception stay. *)
Definition _fit (self : Estimator) (X : loc) (y : option loc)
    (fit_with_zeros : bool) (h : heap) : result unit * Estimator * heap :=
  (* If metric is precomputed no diferences with the Sklearn estimator *)
  let est := _init_estimator self in
  let self := set__estimator est self in
  let self := set__fitted_with_distances true self in
  match metric self with
  | precomputed =>
      let '(self, h) :=
        if is_fdata y h
        then let '(y', h') := deepcopy_opt y h in (set__fit_y y' self, h')
        else (self, h) in
      (estimator_fit self est (as_matrix (load X h)) (load_opt y h), h)
  | metric_fn d =>
      let d := _fit_metric d (samples_of (load X h)) in
      let self := set_metric (metric_fn d) self in
      let '(lx, h) := deepcopy X h in
      let self := set__fit_X lx self in
      let '(ly, h) := deepcopy_opt y h in
      let self := set__fit_y ly self in
      if fit_with_zeros
      then
        let self := set__fitted_with_distances false self in
        let n := len (load X h) in
        (estimator_fit self est (zeros2 n n) (load_opt y h), h)
      else
        let distances :=
          PairwiseMetric d (samples_of (load X h)) (samples_of (load X h)) in
        (estimator_fit self est distances (load_opt y h), h)
  end.

Definition fit (self : Estimator) (X : loc) (y : option loc) (h : heap)
  : result unit * Estimator * heap :=
  _fit self X y true h.

Definition _refit_with_distances (self : Estimator) (h : heap)
  : result unit * Estimator :=
  match getattr "_fitted_with_distances" (_fitted_with_distances self) with
  | Raise e => (Raise e, self)
  | Ok true => (Ok tt, self)
  | Ok false =>
      match metric self with
      | precomputed => (Raise AssertionError, self)
      | metric_fn d =>
          match getattr "_fit_X" (_fit_X self),
                getattr "_estimator" (_estimator self),
                getattr "_fit_y" (_fit_y self) with
          | Ok lx, Ok est, Ok ly =>
              let X := samples_of (load lx h) in
              let distances := PairwiseMetric d X X in
              match estimator_fit self est distances (load_opt ly h) with
              | (Ok _, self) => (Ok tt, set__fitted_with_distances true self)
              | (Raise e, self) => (Raise e, self)
              end
          | Raise e, _, _ => (Raise e, self)
          | _, Raise e, _ => (Raise e, self)
          | _, _, Raise e => (Raise e, self)
          end
      end
  end.

Definition _X_to_distances (self : Estimator) (X : loc) (h : heap)
  : result matrix :=
  match metric self with
  | precomputed => Ok (as_matrix (load X h))
  | metric_fn d =>
      lx ← getattr "_fit_X" (_fit_X self);
      mret (PairwiseMetric d (samples_of (load X h)) (samples_of (load lx h)))
  end.

(** The common prologue of the four query methods: the fitted check,
    the refit when no query set is given, and the distances to the
    query set otherwise. *)
Definition query_prologue (self : Estimator) (X : option loc) (h : heap)
  : result (SkEstimator * option matrix) * Estimator :=
  match _check_is_fitted self with
  | Raise e => (Raise e, self)
  | Ok _ =>
      let '(r, self) :=
        match X with
        | None => _refit_with_distances self h
        | Some _ => (Ok tt, self)
        end in
      match r with
      | Raise e => (Raise e, self)
      | Ok _ =>
          let X_dist :=
            match X with
            | None => Ok None
            | Some x => Some <$> _X_to_distances self x h
            end in
          (d ← X_dist; est ← getattr "_estimator" (_estimator self);
           mret (est, d), self)
      end
  end.

Definition kneighbors (self : Estimator) (X : option loc)
    (n_neighbors : option nat) (return_distance : bool) (h : heap)
  : result Query * Estimator :=
  let '(r, self) := query_prologue self X h in
  (p ← r; sk_kneighbors p.1 p.2 n_neighbors return_distance, self).

Definition kneighbors_graph (self : Estimator) (X : option loc)
    (n_neighbors : option nat) (mode : string) (h : heap)
  : result matrix * Estimator :=
  let '(r, self) := query_prologue self X h in
  (p ← r; sk_kneighbors_graph p.1 p.2 n_neighbors mode, self).

Definition radius_neighbors (self : Estimator) (X : option loc)
    (radius : option xreal) (return_distance : bool) (h : heap)
  : result Query * Estimator :=
  let '(r, self) := query_prologue self X h in
  (p ← r; sk_radius_neighbors p.1 p.2 radius return_distance, self).

Definition radius_neighbors_graph (self : Estimator) (X : option loc)
    (radius : option xreal) (mode : string) (h : heap)
  : result matrix * Estimator :=
  let '(r, self) := query_prologue self X h in
  (p ← r; sk_radius_neighbors_graph p.1 p.2 radius mode, self).

(** [NeighborsClassifierMixin] *)

Definition classifier_predict (self : Estimator) (X : loc) (h : heap)
  : result pyobj :=
  _ ← _check_is_fitted self;
  X_dist ← _X_to_distances self X h;
  est ← getattr "_estimator" (_estimator self);
  sk_predict est X_dist.

Definition predict_proba (self : Estimator) (X : loc) (h : heap)
  : result matrix :=
  _ ← _check_is_fitted self;
  X_dist ← _X_to_distances self X h;
  est ← getattr "_estimator" (_estimator self);
  sk_predict_proba est X_dist.

(** [NeighborsRegressorMixin] *)

(** Return weights based on distance reciprocal. The argument is a
    reference to the array of distances; when a zero is found that same
    array is written and returned. *)
Definition _distance_weights (distance : loc) (h : heap) : loc * heap :=
  let d := load_vector distance h in
  let idx := (fun x => xeqb x (Fin 0)) <$> d in
  if existsb (fun b : bool => b) idx
  then
    let weights := distance in
    let h := <[weights := PArr (mask_assign idx (Fin 1) (load_vector weights h))]> h in
    let h := <[weights := PArr (mask_assign (negb <$> idx) (Fin 0)
                                            (load_vector weights h))]> h in
    (weights, h)
  else alloc (PArr (xdiv (Fin 1) <$> d)) h.

(** Compute weighted average. [weights /= np.sum(weights)] writes the
    array [weights] refers to. *)
Definition _average (X : FDataGrid) (weights : option loc) (h : heap)
  : result FDataGrid * heap :=
  match weights with
  | None => (Ok (with_data X [fd_mean (data_matrix X)]), h)
  | Some w =>
      let total := xsum (load_vector w h) in
      let h := <[w := PArr ((fun x => xdiv x total) <$> load_vector w h)]> h in
      (scaled ← fd_scale X (load_vector w h);
       mret (with_data X [fd_sum (data_matrix scaled)]), h)
  end.

Definition _prediction_from_neighbors (self : Estimator)
    (neighbors : FDataGrid) (dist : loc) (h : heap)
  : result FDataGrid * heap :=
  let '(w, h) :=
    match weights self with
    | uniform => (None, h)
    | distance => let '(w, h) := _distance_weights dist h in (Some w, h)
    | weights_fn f => let '(w, h) := f dist h in (Some w, h)
    end in
  _average neighbors w h.

Definition regressor_fit (self : Estimator) (X : loc) (y : option loc)
    (h : heap) : result unit * Estimator * heap :=
  let self := set__functional (is_fdata y h) self in
  fit self X y h.

(** Response in case of no neighbors. *)
Definition _outlier_response (self : Estimator) (neighbors : list (list nat))
  : result FDataGrid :=
  match outlier_response self with
  | None =>
      let index := np_where ((fun n => Nat.eqb (length n) 0) <$> neighbors) in
      Raise (ValueError no_neighbors_message index)
  | Some r => Ok r
  end.

Definition _multivariate_predict (self : Estimator) (X : loc) (h : heap)
  : result pyobj :=
  X_dist ← _X_to_distances self X h;
  est ← getattr "_estimator" (_estimator self);
  sk_predict est X_dist.

(** [self._fit_y], which the functional path indexes as an [FData]. *)
Definition fit_y_fdata (self : Estimator) (h : heap) : result FDataGrid :=
  ly ← getattr "_fit_y" (_fit_y self);
  match load_opt ly h with
  | Some (PFData fd) => Ok fd
  | _ => Raise IndexError
  end.

(** The prediction for one query sample: [distances] holds a reference
    to each row of the distance array the query returned. *)
Definition predict_sample (self : Estimator)
    (neighbors : list (list nat)) (distances : list loc)
    (i : nat) (idx : list nat) (h : heap) : result FDataGrid * heap :=
  if Nat.eqb (length idx) 0
  then (_outlier_response self neighbors, h)
  else
    match fit_y_fdata self h ≫= (fun fit_y => fd_take fit_y idx),
          distances !! i with
    | Ok nb, Some d => _prediction_from_neighbors self nb d h
    | Raise e, _ => (Raise e, h)
    | _, None => (Raise IndexError, h)
    end.

(** The loop [for i, idx in enumerate(neighbors[1:])]. *)
Fixpoint predict_rest (self : Estimator)
    (neighbors : list (list nat)) (distances : list loc)
    (i : nat) (rest : list (list nat)) (pred : FDataGrid) (h : heap)
  : result FDataGrid * heap :=
  match rest with
  | [] => (Ok pred, h)
  | idx :: rest' =>
      match predict_sample self neighbors distances (i + 1) idx h with
      | (Ok new_pred, h) =>
          match concatenate pred new_pred with
          | Ok pred => predict_rest self neighbors distances (S i) rest' pred h
          | Raise e => (Raise e, h)
          end
      | (Raise e, h) => (Raise e, h)
      end
  end.

(** Allocation of the rows of a fresh 2-D array, so that [a[i]] is a
    reference into it. *)
Fixpoint alloc_rows (rows : matrix) (h : heap) : list loc * heap :=
  match rows with
  | [] => ([], h)
  | r :: rows' =>
      let '(l, h) := alloc (PArr r) h in
      let '(ls, h) := alloc_rows rows' h in
      (l :: ls, h)
  end.

(** Predict functional responses. *)
Definition _functional_predict (self : Estimator) (X : loc) (h : heap)
  : result FDataGrid * heap :=
  match _query self (load X h) h with
  | Raise e => (Raise e, h)
  | Ok (dist, neighbors) =>
      let '(distances, h) := alloc_rows dist h in
      match neighbors with
      | [] => (Raise IndexError, h)
      | idx0 :: rest =>
          match predict_sample self neighbors distances 0 idx0 h with
          | (Ok pred, h) =>
              predict_rest self neighbors distances 0 rest pred h
          | (Raise e, h) => (Raise e, h)
          end
      end
  end.

Definition predict (self : Estimator) (X : loc) (h : heap)
  : result pyobj * heap :=
  match _check_is_fitted self with
  | Raise e => (Raise e, h)
  | Ok _ =>
      (* Choose type of prediction *)
      match getattr "_functional" (_functional self) with
      | Raise e => (Raise e, h)
      | Ok true =>
          let '(r, h) := _functional_predict self X h in (PFData <$> r, h)
      | Ok false => (_multivariate_predict self X h, h)
      end
  end.

(** [a - b] on function containers; a single sample is broadcast. *)
Definition fd_sub (a b : list sample) : result (list sample) :=
  n ← bdim (length a) (length b);
  mret (zip_with (sample_map2 xsub) (stretch n a) (stretch n b)).

(** [u.data_matrix[..., 0]] *)
Definition first_component (d : list sample) : matrix :=
  (fun s : sample => (fun pt : vector => default (Fin 0) (head pt)) <$> s) <$> d.

(** [np.sum(a, axis=0)] of a 2-D array *)
Definition sum_axis0 (a : matrix) : vector :=
  match a with
  | [] => []
  | r :: rs => foldl (zip_with xadd) r rs
  end.

(** Return an extension of the coefficient of determination R^2. *)
Definition _functional_score (self : Estimator) (X : loc) (y : FDataGrid)
    (sample_weight : option vector) (h : heap) : result xreal * heap :=
  if negb (Nat.eqb (dim_codomain y) 1 && Nat.eqb (dim_domain y) 1)
  then (Raise (ValueError
                 "Score not implemented for multivariate functional data." []), h)
  else
    (* Make prediction *)
    match predict self X h with
    | (Raise e, h) => (Raise e, h)
    | (Ok (PFData pred), h) =>
        (u ← fd_sub (data_matrix y) (data_matrix pred);
         v ← fd_sub (data_matrix y) [fd_mean (data_matrix y)];
         (* Square without allocate more memory *)
         let data_u := (fun r : vector => xsquare <$> r) <$> first_component u in
         let data_v := (fun r : vector => xsquare <$> r) <$> first_component v in
         p ← match sample_weight with
             | None => Ok (data_u, data_v)
             | Some sw =>
                 if negb (Nat.eqb (length sw) (length (data_matrix y)))
                 then Raise (ValueError "Must be a weight for each sample." [])
                 else
                   let sw := (fun w => xdiv w (xsum sw)) <$> sw in
                   Ok (zip_with (fun w (r : vector) => xmul w <$> r) sw data_u,
                       zip_with (fun w (r : vector) => xmul w <$> r) sw data_v)
             end;
         (* Sum and integrate *)
         let grid := default [] (head (grid_points y)) in
         let int_u := simps (sum_axis0 p.1) grid in
         let int_v := simps (sum_axis0 p.2) grid in
         mret (xsub (Fin 1) (xdiv int_u int_v)), h)
    | (Ok _, h) => (Raise (AttributeError "data_matrix"), h)
    end.

(** Return the coefficient of determination R^2 of the prediction. The
    multivariate case is [RegressorMixin.score]: predict, then
    [r2_score]. *)
Definition score (self : Estimator) (X : loc) (y : loc)
    (sample_weight : option vector) (h : heap) : result xreal * heap :=
  match getattr "_functional" (_functional self) with
  | Raise e => (Raise e, h)
  | Ok true =>
      match load y h with
      | PFData fy => _functional_score self X fy sample_weight h
      | _ => (Raise (AttributeError "dim_codomain"), h)
      end
  | Ok false =>
      (* Default sklearn multivariate score *)
      match predict self X h with
      | (Raise e, h) => (Raise e, h)
      | (Ok pred, h) => (Ok (r2_score (load y h) pred sample_weight), h)
      end
  end.

End Methods.

End Neighbors.

(** *** [skfda/datasets/_samples_generators.py] *)

Module Generators.

(** A numpy random generator, as the sequence of standard normal
    variates it will produce and the position reached in it. Drawing
    advances the position; that is the only state. *)
Record RandomState : Type := {
  variates : nat -> R;
  cursor : nat;
}.

Definition advance (n : nat) (rs : RandomState) : RandomState :=
  {| variates := variates rs; cursor := cursor rs + n |}.

(** [random_state.standard_normal(size=n)] *)
Definition standard_normal1 (n : nat) (rs : RandomState)
  : vector * RandomState :=
  ((fun k => Fin (variates rs (cursor rs + k))) <$> seq 0 n, advance n rs).

(** [random_state.standard_normal(size=(n, m))], filled row by row. *)
Fixpoint standard_normal2 (n m : nat) (rs : RandomState)
  : matrix * RandomState :=
  match n with
  | 0 => ([], rs)
  | S n' =>
      let '(row, rs) := standard_normal1 m rs in
      let '(rows, rs) := standard_normal2 n' m rs in
      (row :: rows, rs)
  end.

(** [random_state.standard_normal(size=(n, m, k))] *)
Fixpoint standard_normal3 (n m k : nat) (rs : RandomState)
  : tensor * RandomState :=
  match n with
  | 0 => ([], rs)
  | S n' =>
      let '(block, rs) := standard_normal2 m k rs in
      let '(blocks, rs) := standard_normal3 n' m k rs in
      (block :: blocks, rs)
  end.

(** The [random_state] argument: [None], a seed, or a generator. *)
Inductive RandomStateLike : Type :=
| RSNone
| RSInt (seed : Z)
| RSGen (g : RandomState).

(** What these functions take from outside the sources: the generator
    numpy shares between all callers that pass [None], and the
    generator a seed stands for. *)
Class RandomSource : Type := {
  global_generator : RandomState;
  seeded_generator : Z -> RandomState;
}.

(** Modelled from the spec: [validate_random_state]
    (skfda.misc.validation) is not among the sources. Section 5 asks
    for an explicit, seedable handle: a generator is used as it is, a
    seed stands for the generator it seeds, and [None] for the shared
    one. *)
Definition validate_random_state `{RandomSource} (random_state : RandomStateLike)
  : RandomState :=
  match random_state with
  | RSNone => global_generator
  | RSInt seed => seeded_generator seed
  | RSGen g => g
  end.

(** An initial condition: an array, or a generator called with
    [size] and [random_state]. *)
Inductive InitialCondition : Type :=
| ICArray (a : ndarray)
| ICGenerator (g : nat -> RandomState -> ndarray * RandomState).

(** A drift or diffusion coefficient, called with [t] and [x]. *)
Abbreviation Coefficient := (xreal -> matrix -> ndarray).

(** [len(a)] of an array with at least one axis. *)
Definition nd_len (a : ndarray) : nat :=
  match a with
  | Arr0 _ => 0
  | Arr1 v => length v
  | Arr2 m => length m
  | Arr3 t => length t
  end.

(** [a[:, n]] and [a[:, n] = m] on a 3-D array. *)
Definition get_slice (data : tensor) (n : nat) : matrix :=
  (fun traj : matrix => default [] (traj !! n)) <$> data.

Definition set_slice (data : tensor) (n : nat) (m : matrix) : tensor :=
  zip_with (fun (traj : matrix) row => <[n := row]> traj) data m.

Definition sequence_message : string :=
  "setting an array element with a sequence. The requested array has an inhomogeneous shape after 1 dimensions. The detected shape was (1,) + inhomogeneous part.".

(** The value of an assignment [a[:, n] = (v,)] where the slot has
    shape [(n_samples, dim)] and the right-hand side is a one-element
    tuple. numpy reads a sequence assigned to a slot of two axes as an
    array of at most two axes; the tuple takes one of them, so an array
    of two or more axes inside it is refused with a [ValueError]. A
    scalar or a 1-D array inside the tuple is broadcast to the slot. *)
Definition fill (n_samples dim : nat) (v : ndarray) : result matrix :=
  let to_slot (m : matrix) : result matrix :=
    if (Nat.eqb (length m) n_samples || Nat.eqb (length m) 1)
    then mapM (fun row : vector =>
                 if (Nat.eqb (length row) dim || Nat.eqb (length row) 1)
                 then Ok (if Nat.eqb (length row) dim then row
                          else stretch dim row)
                 else Raise broadcast_error)
              (if Nat.eqb (length m) n_samples then m else stretch n_samples m)
    else Raise broadcast_error in
  match v with
  | Arr0 x => to_slot [[x]]
  | Arr1 r => to_slot [r]
  | Arr2 _ | Arr3 _ => Raise (ValueError sequence_message [])
  end.

(** The contraction of a row of the diffusion matrix with a noise
    vector. *)
Definition contract (mrow nrow : vector) : result xreal :=
  xsum <$> broadcast1 xmul mrow nrow.

(** [np.einsum('...dj, ...j -> ...d', a, noise)] for a 2-D [noise]. *)
Definition einsum (a : ndarray) (noise : matrix) : result matrix :=
  match a with
  | Arr2 m =>
      mapM (fun nrow => mapM (fun mrow => contract mrow nrow) m) noise
  | Arr3 t =>
      n ← bdim (length t) (length noise);
      mapM (fun p : matrix * vector =>
              mapM (fun mrow => contract mrow p.2) p.1)
           (zip (stretch n t) (stretch n noise))
  | _ => Raise (ValueError "einsum: operand has too few dimensions" [])
  end.

Definition invalid_generator_message : string :=
  "Invalid initial conditions. If a function is given, the n_samples argument must be included.".

Definition invalid_flat_message : string :=
  "Invalid initial conditions. Each of the starting points must be a flat array.".

Definition diffusion_dim_message : string :=
  "The diffusion function returns the wrong dimensions.The expected dimension is {dim_codomain} or 1.".

Definition diffusion_dims_message : string :=
  "The diffusion function returns the wrong dimensions. The expected dimensiones are {dim_codomain} x {dim_noise}.".

(** The first part of [euler_maruyama]: the initial values as a 2-D
    array, one row per trajectory. *)
Definition resolve_initial_values (initial_condition : InitialCondition)
    (n_samples : option nat) (rs : RandomState)
  : result matrix * RandomState :=
  let '(initial_values, rs) :=
    match n_samples, initial_condition with
    | None, ICGenerator _ =>
        (Raise (ValueError invalid_generator_message []), rs)
    | None, ICArray a => (Ok (atleast_1d a), rs)
    | Some n, ICGenerator g => let '(a, rs) := g n rs in (Ok a, rs)
    | Some n, ICArray a =>
        let a := atleast_1d a in
        let dim_codomain := nd_len a in
        (nd_mul a (Arr2 (ones2 n dim_codomain)), rs)
    end in
  (a ← initial_values;
   match a with
   | Arr1 v => Ok ((fun x => [x]) <$> v)
   | Arr2 m => Ok m
   | Arr3 _ => Raise (ValueError invalid_flat_message [])
   | Arr0 _ => Raise (ValueError "not enough values to unpack (expected 2, got 0)" [])
   end, rs).

(** The probe of the diffusion at [start]: the matrix its values are
    multiplied with from then on. *)
Definition formatting_matrix (probe : ndarray) (dim_codomain dim_noise : nat)
  : result matrix :=
  match atleast_1d probe with
  | Arr1 v =>
      if (Nat.eqb (length v) dim_codomain || Nat.eqb (length v) 1)
      then Ok (eye dim_codomain dim_noise)
      else Raise (ValueError diffusion_dim_message [dim_codomain])
  | a =>
      if decide (drop (length (shape a) - 2) (shape a) = [dim_codomain; dim_noise])
      then Ok (ones2 dim_codomain dim_noise)
      else Raise (ValueError diffusion_dims_message [dim_codomain; dim_noise])
  end.

(** [formatted_diffusion(t, x)] *)
Definition formatted_diffusion (diffusion : Coefficient) (formatting : matrix)
    (t : xreal) (x : matrix) : result ndarray :=
  nd_mul (diffusion t x) (Arr2 formatting).

(** One pass of the loop body: the slice [n + 1] from the slice [n].
    In the source the parenthesised right-hand side ends in a comma
    after [np.sqrt(step_size)], so what is assigned is a one-element
    tuple holding the sum; [fill] is that assignment. *)
Definition euler_step (drift diffusion : Coefficient) (formatting : matrix)
    (times : vector) (step_size : xreal) (noise : tensor)
    (n_samples dim_codomain : nat) (data_matrix : tensor) (n : nat)
  : result tensor :=
  t_n ← match times !! n with Some t => Ok t | None => Raise IndexError end;
  let x_n := get_slice data_matrix n in
  a ← nd_mul (Arr0 step_size) (drift t_n x_n);
  s ← nd_add (Arr2 x_n) a;
  g ← formatted_diffusion diffusion formatting t_n x_n;
  e ← einsum g (get_slice noise n);
  b ← nd_mul (Arr2 e) (Arr0 (xsqrt step_size));
  s ← nd_add s b;
  new ← fill n_samples dim_codomain s;
  mret (set_slice data_matrix (n + 1) new).

(** [for n in range(n_grid_points - 1)] *)
Fixpoint euler_loop (step : tensor -> nat -> result tensor)
    (data_matrix : tensor) (n count : nat) : result tensor :=
  match count with
  | 0 => Ok data_matrix
  | S count' =>
      data_matrix ← step data_matrix n;
      euler_loop step data_matrix (S n) count'
  end.

Section SDE.
Context `{RandomSource}.

(** Numerical integration of an Ito SDE using the Euler-Maruyana
    scheme. The result comes with the generator as the call leaves
    it. *)
Definition euler_maruyama (initial_condition : InitialCondition)
    (n_grid_points : nat) (drift diffusion : option Coefficient)
    (n_samples : option nat) (start stop : xreal) (dim_noise : option nat)
    (random_state : RandomStateLike) : result FDataGrid * RandomState :=
  let rs := validate_random_state random_state in
  match resolve_initial_values initial_condition n_samples rs with
  | (Raise e, rs) => (Raise e, rs)
  | (Ok initial_values, rs) =>
      let n_samples := length initial_values in
      let dim_codomain := length (default [] (head initial_values)) in
      let dim_noise := default dim_codomain dim_noise in
      let drift := default (fun _ _ => Arr0 (Fin 0)) drift in
      let diffusion :=
        default (fun _ _ => Arr2 (eye dim_codomain dim_noise)) diffusion in
      match formatting_matrix (diffusion start initial_values)
                              dim_codomain dim_noise with
      | Raise e => (Raise e, rs)
      | Ok formatting =>
          let data_matrix := zeros3 n_samples n_grid_points dim_codomain in
          let times := linspace start stop n_grid_points in
          match times !! 1%nat, times !! 0%nat with
          | Some t1, Some t0 =>
              let step_size := xsub t1 t0 in
              let '(noise, rs) :=
                standard_normal3 n_samples (n_grid_points - 1) dim_noise rs in
              let data_matrix := set_slice data_matrix 0 initial_values in
              (data_matrix ←
                 euler_loop
                   (euler_step drift diffusion formatting
                               times step_size noise n_samples dim_codomain)
                   data_matrix 0 (n_grid_points - 1);
               mret {| grid_points := [times]; data_matrix := data_matrix;
                       domain_range := None; interpolation := None |}, rs)
          | _, _ => (Raise IndexError, rs)
          end
      end
  end.

End SDE.

(** [random_state.normal(loc, scale, size)]: numpy rejects a negative
    scale, and otherwise returns [loc + scale * z] for standard normal
    variates [z]. *)
Definition negative (x : xreal) : bool :=
  match x with
  | Fin a => if Rlt_dec a 0 then true else false
  | Inf neg => neg
  | NaN => false
  end.

Definition normal1 (loc scale : xreal) (n : nat) (rs : RandomState)
  : result vector * RandomState :=
  if negative scale then (Raise (ValueError "scale < 0" []), rs)
  else
    let '(z, rs) := standard_normal1 n rs in
    (Ok ((fun x => xadd loc (xmul scale x)) <$> z), rs).

Definition normal2 (loc scale : xreal) (n m : nat) (rs : RandomState)
  : result matrix * RandomState :=
  if negative scale then (Raise (ValueError "scale < 0" []), rs)
  else
    let '(z, rs) := standard_normal2 n m rs in
    (Ok ((fun row : vector => (fun x => xadd loc (xmul scale x)) <$> row) <$> z),
     rs).

(** [np.diag(v)] and [np.outer(u, v)] *)
Definition diag (v : vector) : matrix :=
  (fun i => (fun j => if Nat.eqb i j then default (Fin 0) (v !! i) else Fin 0)
              <$> seq 0 (length v))
    <$> seq 0 (length v).

Definition outer (u v : vector) : matrix :=
  (fun x => xmul x <$> v) <$> u.

(** A number passed where the signature says [float]: a Python number,
    or a numpy scalar such as [np.float64]. The two differ when they
    divide. *)
Inductive scalar : Type :=
| PyFloat (x : xreal)
| NpFloat (x : xreal).

Definition scalar_value (y : scalar) : xreal :=
  match y with PyFloat x | NpFloat x => x end.

(** [x / y] for a Python float [x]: a Python zero divisor raises; with
    a numpy divisor the division is numpy's, which warns and returns an
    infinity or [nan]. *)
Definition float_div (x : xreal) (y : scalar) : result xreal :=
  match y with
  | PyFloat (Fin b) =>
      if Req_dec_T b 0 then Raise ZeroDivisionError else Ok (xdiv x (Fin b))
  | PyFloat y | NpFloat y => Ok (xdiv x y)
  end.

Section Sinusoidal.
Context `{RandomSource}.

(** Generate sinusoidal proccess. The three draws come first, in the
    order amplitudes, phases, noise; [2 * np.pi / period] divides a
    Python float by whatever kind of number [period] is. The [FDataGrid] constructor, which is outside
    these sources, receives [t] and the two-dimensional [y] and adds the
    codomain axis; what it checks of the grid is not part of this
    definition, so the properties below are stated for a grid of at
    least one point between [start <= stop]. *)
Definition make_sinusoidal_process (n_samples n_features : nat)
    (start stop : xreal) (period : scalar)
    (phase_mean phase_std amplitude_mean amplitude_std error_std : xreal)
    (random_state : RandomStateLike) : result FDataGrid * RandomState :=
  let rs := validate_random_state random_state in
  let t := linspace start stop n_features in
  match normal1 amplitude_mean amplitude_std n_samples rs with
  | (Raise e, rs) => (Raise e, rs)
  | (Ok amplitudes, rs) =>
      let alpha := diag amplitudes in
      match normal1 phase_mean phase_std n_samples rs with
      | (Raise e, rs) => (Raise e, rs)
      | (Ok phases, rs) =>
          let phi := outer phases (ones1 n_features) in
          match normal2 (Fin 0) error_std n_samples n_features rs with
          | (Raise e, rs) => (Raise e, rs)
          | (Ok error, rs) =>
              (omega ← float_div (xmul (Fin 2) (Fin PI)) period;
               wt ← nd_mul (Arr0 omega) (Arr1 t);
               arg ← nd_add wt (Arr2 phi);
               match arg with
               | Arr2 a =>
                   let s := (fun r : vector => xsin <$> r) <$> a in
                   p ← matmul alpha s;
                   y ← broadcast2 xadd p error;
                   mret {| grid_points := [t];
                           data_matrix :=
                             (fun r : vector => (fun x => [x]) <$> r) <$> y;
                           domain_range := None; interpolation := None |}
               | _ => Raise broadcast_error
               end, rs)
          end
      end
  end.

End Sinusoidal.

End Generators.

(** ** Part II. Properties *)

(** *** Extended reals *)

Lemma xeqb_fin a b : xeqb (Fin a) (Fin b) = bool_decide (a = b).
Proof.
  unfold xeqb. destruct (Req_dec_T a b), (bool_decide_reflect (a = b)); congruence.
Qed.

Lemma xeqb_fin_refl a : xeqb (Fin a) (Fin a) = true.
Proof. rewrite xeqb_fin. by apply bool_decide_eq_true. Qed.

Lemma xeqb_fin_ne a b : a <> b -> xeqb (Fin a) (Fin b) = false.
Proof. intros. rewrite xeqb_fin. by apply bool_decide_eq_false. Qed.

Lemma xeqb_zero_true x : xeqb x (Fin 0) = true -> x = Fin 0.
Proof.
  destruct x as [a| |]; unfold xeqb; try discriminate.
  destruct (Req_dec_T a 0); [congruence|discriminate].
Qed.

Lemma xdiv_fin a b : b <> 0%R -> xdiv (Fin a) (Fin b) = Fin (a / b).
Proof. intros. unfold xdiv. destruct (Req_dec_T b 0); [contradiction|reflexivity]. Qed.

Lemma xdiv_zero_zero : xdiv (Fin 0) (Fin 0) = NaN.
Proof. unfold xdiv. destruct (Req_dec_T 0 0); [reflexivity|congruence]. Qed.

Lemma xdiv_one x : xdiv x (Fin 1) = x.
Proof.
  destruct x as [a|s|]; unfold xdiv; [| |reflexivity].
  - destruct (Req_dec_T 1 0); [lra|]. f_equal. field.
  - unfold Rneg. destruct (Rlt_dec 1 0); [lra|]. by destruct s.
Qed.

(** *** The linear smoother *)

Module LinearFacts.
Import Linear.

Section WithSmoother.
Context `{Smoother}.

Lemma fit_fitted self X self' :
      fit self X = Ok self' -> fitted self'.
    Proof.
      unfold fit. intros Hfit.
      destruct (hat_matrix _ None None) as [m|e]; simpl in Hfit; [|discriminate].
      injection Hfit as <-. split; simpl; eauto.
    Qed.

(** What [fit] records: the grid of [X] as input points, and as output
    points the ones given to the constructor, or the grid of [X]. *)
Lemma fit_records_points self X self' :
  fit self X = Ok self' ->
  input_points_ self' = Some (grid_points X) /\
  output_points_ self'
  = Some (match output_points self with
          | Some p => _to_grid_points p
          | None => grid_points X
          end).
Proof.
  unfold fit. intros Hfit.
  destruct (hat_matrix _ None None) as [m|e]; simpl in Hfit; [|discriminate].
  injection Hfit as <-. split; reflexivity.
Qed.

(** C9. On a fitted smoother, whose attributes [input_points_] and
    [output_points_] hold the points [fit] recorded, [hat_matrix] called
    with any [input_points] and [output_points] returns what
    [hat_matrix()] returns, and that is [_hat_matrix] applied to the
    recorded points: the arguments are dropped. The recorded points are
    those of the call of [fit] that returned the smoother: the grid of
    its [X], and the output points of the constructor, or that grid. *)
Theorem hat_matrix_ignores_arguments self input_points output_points
    fitted_in fitted_out :
  input_points_ self = Some fitted_in ->
  output_points_ self = Some fitted_out ->
  hat_matrix self input_points output_points = hat_matrix self None None /\
  hat_matrix self input_points output_points
  = _hat_matrix self fitted_in fitted_out /\
  forall self0 X,
    fit self0 X = Ok self ->
    fitted_in = grid_points X /\
    fitted_out = match Linear.output_points self0 with
                 | Some p => _to_grid_points p
                 | None => grid_points X
                 end.
Proof.
  intros Hip Hop. split; [|split].
  - unfold hat_matrix. rewrite Hip, Hop.
    destruct input_points, output_points; reflexivity.
  - unfold hat_matrix. rewrite Hip, Hop.
    destruct input_points, output_points; reflexivity.
  - intros self0 X Hfit.
    destruct (fit_records_points self0 X self Hfit) as [Hi Ho].
    rewrite Hip in Hi. rewrite Hop in Ho.
    injection Hi as ->. injection Ho as ->. by split.
Qed.

Lemma mapM_length {A B} (f : A -> result B) (l : list A) (k : list B) :
  mapM f l = Ok k -> length k = length l.
Proof.
  revert k. induction l as [|x l IH]; intros k; simpl.
  - by intros [= <-].
  - destruct (f x) as [y|e]; simpl; [|discriminate].
    destruct (mapM f l) as [k'|e]; simpl; [|discriminate].
    intros [= <-]. simpl. f_equal. by apply IH.
Qed.

Lemma matmul_rows (a b m : matrix) :
  matmul a b = Ok m -> length m = length a.
Proof.
  unfold matmul. destruct (forallb _ a); [|discriminate].
  intros [= <-]. by rewrite length_fmap.
Qed.

(** X14. What a successful [transform] returns: over the output grid
    recorded by [fit], as many observations as [X] has, each with one
    row per row of the hat matrix that [hat_matrix()] computes. *)
Theorem transform_shape self X Y :
  transform self X = Ok Y ->
  output_points_ self = Some (grid_points Y) /\
  length (data_matrix Y) = length (data_matrix X) /\
  exists m, hat_matrix self None None = Ok m /\
            Forall (fun s => length s = length m) (data_matrix Y).
Proof.
  unfold transform.
  destruct (input_points_ self) as [ip|]; simpl; [|discriminate].
  destruct (negb _); [discriminate|].
  destruct (hat_matrix self None None) as [m|e]; simpl; [|discriminate].
  destruct (mapM (matmul m) (data_matrix X)) as [d|e] eqn:Ed; simpl;
    [|discriminate].
  destruct (output_points_ self) as [op|]; simpl; [|discriminate].
  destruct (copy_validate X d op) as [[]|e]; simpl; [|discriminate].
  intros [= <-]. simpl. split; [reflexivity|].
  split; [by apply mapM_length in Ed|].
  exists m. split; [reflexivity|].
  clear -Ed. revert d Ed.
  induction (data_matrix X) as [|s l IH]; intros d; simpl.
  - intros [= <-]. constructor.
  - destruct (matmul m s) as [y|e] eqn:Ey; simpl; [|discriminate].
    destruct (mapM (matmul m) l) as [k|e]; simpl; [|discriminate].
    intros [= <-]. constructor; [by apply matmul_rows in Ey|by apply IH].
Qed.

(** X15. [transform] checks the grid before anything else: if a grid
    array of [X] differs from the fitted one in the same position, it
    raises [AssertionError], and the hat matrix is not computed. *)
Theorem transform_rejects_other_grid self X fitted_in i u v :
  input_points_ self = Some fitted_in ->
  fitted_in !! i = Some u -> grid_points X !! i = Some v ->
  array_equal u v = false ->
  transform self X = Raise AssertionError.
Proof.
  intros Hin Hu Hv Hne. unfold transform. rewrite Hin. simpl.
  assert (Hf : forallb (fun p => array_equal p.1 p.2)
                       (zip fitted_in (grid_points X)) = false).
  { apply not_true_is_false. intros Hall.
    rewrite forallb_forall in Hall.
    assert (Hp : In (u, v) (zip fitted_in (grid_points X))).
    { apply list_elem_of_In, list_elem_of_lookup. exists i.
      rewrite lookup_zip_with, Hu. simpl. by rewrite Hv. }
    apply Hall in Hp. simpl in Hp. congruence. }
  rewrite Hf. reflexivity.
Qed.

(** X16. On a smoother on which [fit] has not been called, [transform]
    and [hat_matrix] raise [AttributeError]: the fitted points do not
    exist yet, and neither method checks for that. *)
Theorem unfitted_smoother_raises_AttributeError
    (output : option GridPoints) X input_points output_points :
  let self := {| Linear.output_points := output; input_points_ := None;
                 output_points_ := None; hat_matrix_ := None |} in
  transform self X = Raise (AttributeError "input_points_") /\
  exists attr, hat_matrix self input_points output_points
               = Raise (AttributeError attr).
Proof.
  intros self. split; [reflexivity|].
  unfold hat_matrix. simpl.
  destruct input_points, output_points; simpl; eauto.
Qed.

End WithSmoother.

(** A smoother whose hat matrix is the identity on the output grid,
    with a container that accepts every copy. *)
Definition identity_smoother : Smoother :=
    {| _hat_matrix := fun _ _ out =>
         Ok (eye (length (default [] (head out)))
                 (length (default [] (head out))));
       _to_grid_points := fun p => p;
       copy_validate := fun _ _ _ => Ok tt |}.

Definition unit_grid : GridPoints := [[Fin 0; Fin 1]].

Definition fitted_smoother : _LinearSmoother :=
    {| output_points := None;
       input_points_ := Some unit_grid;
       output_points_ := Some unit_grid;
       hat_matrix_ := Some (eye 2 2) |}.

(** The smoother [fit] returns on the two-point grid, queried with
    points of other sizes. *)
Lemma hat_matrix_ignores_arguments_witness :
  @fit identity_smoother
     {| output_points := None; input_points_ := None;
        output_points_ := None; hat_matrix_ := None |}
     {| grid_points := unit_grid; data_matrix := [[[Fin 5]; [Fin 6]]];
        domain_range := None; interpolation := None |}
  = Ok fitted_smoother /\
  input_points_ fitted_smoother = Some unit_grid /\
  output_points_ fitted_smoother = Some unit_grid /\
  @hat_matrix identity_smoother fitted_smoother
     (Some [[Fin 5]]) (Some [[Fin 7; Fin 8; Fin 9]])
  = @hat_matrix identity_smoother fitted_smoother None None /\
  @hat_matrix identity_smoother fitted_smoother
     (Some [[Fin 5]]) (Some [[Fin 7; Fin 8; Fin 9]])
  = @_hat_matrix identity_smoother fitted_smoother unit_grid unit_grid /\
  forall self0 X,
    @fit identity_smoother self0 X = Ok fitted_smoother ->
    unit_grid = grid_points X /\
    unit_grid = match Linear.output_points self0 with
                | Some p => @_to_grid_points identity_smoother p
                | None => grid_points X
                end.
Proof.
  split; [reflexivity|]. split; [reflexivity|]. split; [reflexivity|].
  exact (@hat_matrix_ignores_arguments identity_smoother fitted_smoother
           (Some [[Fin 5]]) (Some [[Fin 7; Fin 8; Fin 9]])
           unit_grid unit_grid eq_refl eq_refl).
Defined.

Definition two_point_curve : FDataGrid :=
  {| grid_points := unit_grid;
     data_matrix := [[[Fin 5]; [Fin 6]]];
     domain_range := None; interpolation := None |}.

Definition smoothed_curve : FDataGrid :=
  {| grid_points := unit_grid;
     data_matrix := [[[Fin (1 * 5 + (0 * 6 + 0))]; [Fin (0 * 5 + (1 * 6 + 0))]]];
     domain_range := None; interpolation := None |}.

Lemma array_equal_unit_grid : array_equal [Fin 0; Fin 1] [Fin 0; Fin 1] = true.
Proof.
  unfold array_equal. cbn [length Nat.eqb zip zip_with forallb fst snd andb].
  by rewrite !xeqb_fin_refl.
Qed.

Lemma transform_two_point_curve :
  @transform identity_smoother fitted_smoother two_point_curve
  = Ok smoothed_curve.
Proof.
  unfold transform, fitted_smoother, two_point_curve, unit_grid.
  cbn [input_points_ getattr mbind result_bind grid_points zip zip_with
       forallb fst snd].
  rewrite array_equal_unit_grid. reflexivity.
Qed.

Lemma transform_shape_witness :
  @transform identity_smoother fitted_smoother two_point_curve
  = Ok smoothed_curve /\
  output_points_ fitted_smoother = Some (grid_points smoothed_curve) /\
  length (data_matrix smoothed_curve) = length (data_matrix two_point_curve) /\
  exists m, @hat_matrix identity_smoother fitted_smoother None None = Ok m /\
            Forall (fun s => length s = length m) (data_matrix smoothed_curve).
Proof.
  split; [exact transform_two_point_curve|].
  exact (@transform_shape identity_smoother fitted_smoother two_point_curve
           smoothed_curve transform_two_point_curve).
Defined.

Definition shifted_curve : FDataGrid :=
  {| grid_points := [[Fin 0; Fin 2]];
     data_matrix := [[[Fin 5]; [Fin 6]]];
     domain_range := None; interpolation := None |}.

Lemma array_equal_shifted_grid : array_equal [Fin 0; Fin 1] [Fin 0; Fin 2] = false.
Proof.
  unfold array_equal. cbn [length Nat.eqb zip zip_with forallb fst snd andb].
  rewrite xeqb_fin_refl. rewrite (xeqb_fin_ne 1 2) by lra. reflexivity.
Qed.

Lemma transform_rejects_other_grid_witness :
  input_points_ fitted_smoother = Some unit_grid /\
  unit_grid !! 0%nat = Some [Fin 0; Fin 1] /\
  grid_points shifted_curve !! 0%nat = Some [Fin 0; Fin 2] /\
  array_equal [Fin 0; Fin 1] [Fin 0; Fin 2] = false /\
  @transform identity_smoother fitted_smoother shifted_curve
  = Raise AssertionError.
Proof.
  split; [reflexivity|]. split; [reflexivity|]. split; [reflexivity|].
  split; [exact array_equal_shifted_grid|].
  exact (@transform_rejects_other_grid identity_smoother fitted_smoother
           shifted_curve unit_grid 0%nat [Fin 0; Fin 1] [Fin 0; Fin 2]
           eq_refl eq_refl eq_refl array_equal_shifted_grid).
Defined.

End LinearFacts.

(** *** The neighbors estimators *)

Module NeighborsFacts.
Import Neighbors.

Lemma mask_assign_both (f : xreal -> bool) (x y : xreal) (d : vector) :
  mask_assign (negb <$> (f <$> d)) y (mask_assign (f <$> d) x d)
  = (fun e => if f e then x else y) <$> d.
Proof.
  unfold mask_assign. induction d as [|e d IH]; simpl; [reflexivity|].
  f_equal; [by destruct (f e)|exact IH].
Qed.

Lemma load_vector_insert l v (h : heap) :
  load_vector l (<[l := PArr v]> h) = v.
Proof. unfold load_vector. by rewrite lookup_insert_eq. Qed.

Lemma load_vector_lookup l v (h : heap) :
  h !! l = Some (PArr v) -> load_vector l h = v.
Proof. unfold load_vector. by intros ->. Qed.

Lemma alloc_fresh o (h : heap) l h' :
  alloc o h = (l, h') ->
  h !! l = None /\ h' !! l = Some o /\ (forall l', l' <> l -> h' !! l' = h !! l').
Proof.
  unfold alloc. intros [= <- <-]. split; [|split].
  - apply not_elem_of_dom, is_fresh.
  - apply lookup_insert_eq.
  - intros l' Hne. by apply lookup_insert_ne.
Qed.

(** The weights [_distance_weights] leaves in the array it returns. *)
Definition indicator_weights (d : vector) : vector :=
  (fun x => if xeqb x (Fin 0) then Fin 1 else Fin 0) <$> d.

Definition reciprocal_weights (d : vector) : vector :=
  xdiv (Fin 1) <$> d.

Definition has_zero (d : vector) : bool :=
  existsb (fun x => xeqb x (Fin 0)) d.

Lemma existsb_fmap {A} (f : A -> bool) (l : list A) :
  existsb (fun b : bool => b) (f <$> l) = existsb f l.
Proof. induction l as [|a l IH]; simpl; [reflexivity|]. f_equal. exact IH. Qed.

Lemma distance_weights_zero dist d (h : heap) :
  h !! dist = Some (PArr d) -> has_zero d = true ->
  _distance_weights dist h = (dist, <[dist := PArr (indicator_weights d)]> h).
Proof.
  intros Hd Hz. unfold _distance_weights.
  rewrite (load_vector_lookup _ _ _ Hd), existsb_fmap.
  unfold has_zero in Hz. rewrite Hz.
  rewrite load_vector_insert, mask_assign_both, insert_insert_eq.
  reflexivity.
Qed.

Lemma distance_weights_nonzero dist d (h : heap) :
  h !! dist = Some (PArr d) -> has_zero d = false ->
  _distance_weights dist h = alloc (PArr (reciprocal_weights d)) h.
Proof.
  intros Hd Hz. unfold _distance_weights.
  rewrite (load_vector_lookup _ _ _ Hd), existsb_fmap.
  unfold has_zero in Hz. by rewrite Hz.
Qed.

(** C10. [_distance_weights] on a reference [dist] to the array [d].
    If [d] holds an exact zero, the reference returned is [dist] itself
    and the array it names now holds 1 at the zero entries and 0
    elsewhere, every other object being untouched. If [d] holds no
    zero, the reference returned names a new object holding the
    reciprocals, and every object that existed before, [d] included, is
    untouched. *)
Theorem distance_weights_in_place dist d (h : heap) :
  h !! dist = Some (PArr d) ->
  let w := (_distance_weights dist h).1 in
  let h' := (_distance_weights dist h).2 in
  (has_zero d = true ->
     w = dist /\ h' !! dist = Some (PArr (indicator_weights d)) /\
     (forall l, l <> dist -> h' !! l = h !! l)) /\
  (has_zero d = false ->
     h !! w = None /\ h' !! w = Some (PArr (reciprocal_weights d)) /\
     h' !! dist = Some (PArr d) /\
     (forall l, l <> w -> h' !! l = h !! l)).
Proof.
  intros Hd. split; intros Hz.
  - rewrite (distance_weights_zero _ _ _ Hd Hz). simpl.
    split; [reflexivity|]. split; [apply lookup_insert_eq|].
    intros l Hne. by apply lookup_insert_ne.
  - rewrite (distance_weights_nonzero _ _ _ Hd Hz).
    destruct (alloc _ h) as [w h'] eqn:Ha. simpl.
    destruct (alloc_fresh _ _ _ _ Ha) as (Hnew & Hw & Hold).
    repeat split; try done.
    rewrite Hold; [done|]. intros ->. congruence.
Qed.

Lemma distance_weights_in_place_witness :
  let h : heap := {[ 0%nat := PArr [Fin 0; Fin 2] ]} in
  h !! 0%nat = Some (PArr [Fin 0; Fin 2]) /\
  (has_zero [Fin 0; Fin 2] = true ->
     (_distance_weights 0 h).1 = 0%nat /\
     (_distance_weights 0 h).2 !! 0%nat
       = Some (PArr (indicator_weights [Fin 0; Fin 2])) /\
     (forall l, l <> 0%nat -> (_distance_weights 0 h).2 !! l = h !! l)).
Proof.
  intros h.
  assert (Hd : h !! 0%nat = Some (PArr [Fin 0; Fin 2]))
    by apply lookup_singleton_eq.
  split; [exact Hd|].
  exact (proj1 (distance_weights_in_place 0%nat [Fin 0; Fin 2] h Hd)).
Defined.

Section BeforeFit.
Context `{Collaborators}.
Variable _query : Estimator -> pyobj -> heap -> result (matrix * list (list nat)).

Lemma query_prologue_unfitted self X h :
  _estimator self = None ->
  query_prologue self X h = (Raise NotFittedError, self).
Proof. intros He. unfold query_prologue, _check_is_fitted. by rewrite He. Qed.

(** X2. On an estimator that [fit] has not been called on, the four
    neighbor queries, the classifier's [predict] and [predict_proba]
    and the regressor's [predict] all raise [NotFittedError], whatever
    their arguments, and the estimator and the store are as before. *)
Theorem queries_before_fit_raise_NotFittedError
    n_neighbors radius weights algorithm leaf_size metric n_jobs outlier
    (X : option loc) (x : loc) k r mode rd (h : heap) :
  let self := __init__ n_neighbors radius weights algorithm leaf_size
                       metric n_jobs outlier in
  kneighbors self X k rd h = (Raise NotFittedError, self) /\
  kneighbors_graph self X k mode h = (Raise NotFittedError, self) /\
  radius_neighbors self X r rd h = (Raise NotFittedError, self) /\
  radius_neighbors_graph self X r mode h = (Raise NotFittedError, self) /\
  classifier_predict self x h = Raise NotFittedError /\
  predict_proba self x h = Raise NotFittedError /\
  predict _query self x h = (Raise NotFittedError, h).
Proof.
  intros self.
  assert (He : _estimator self = None) by reflexivity.
  unfold kneighbors, kneighbors_graph, radius_neighbors, radius_neighbors_graph.
  rewrite !(query_prologue_unfitted _ _ _ He).
  repeat split; reflexivity.
Qed.

(** X3. [score] of the regressor mixin reads [self._functional] before
    anything else. On an estimator that [fit] has not been called on,
    the attribute does not exist: the call raises [AttributeError] for
    [_functional], not [NotFittedError], and nothing is changed. *)
Theorem score_before_fit_raises_AttributeError
    n_neighbors radius weights algorithm leaf_size metric n_jobs outlier
    (X y : loc) sample_weight (h : heap) :
  let self := __init__ n_neighbors radius weights algorithm leaf_size
                       metric n_jobs outlier in
  score _query self X y sample_weight h
  = (Raise (AttributeError "_functional"), h).
Proof. reflexivity. Qed.

End BeforeFit.

Section FitAndRefit.
Context `{Collaborators}.

Lemma deepcopy_fresh l o (h : heap) l' h' :
  h !! l = Some o -> deepcopy l h = (l', h') ->
  h !! l' = None /\ h' !! l' = Some o /\
  (forall k, k <> l' -> h' !! k = h !! k).
Proof. unfold deepcopy. intros ->. apply alloc_fresh. Qed.

Lemma estimator_fit_ok (self : Estimator) est M y :
  sk_validate est M y = Ok tt ->
  estimator_fit self est M y = (Ok tt, set__estimator (sk_record est M y) self).
Proof. intros Hv. unfold estimator_fit, sk_fit. rewrite Hv. reflexivity. Qed.

Lemma estimator_fit_raise (self : Estimator) est M y e :
  sk_validate est M y = Raise e ->
  estimator_fit self est M y = (Raise e, self).
Proof. intros Hv. unfold estimator_fit, sk_fit. rewrite Hv. reflexivity. Qed.

(** [fit] with a metric, up to the call of the index's [fit]. *)
Lemma fit_deferred (self : Estimator) (X y : loc) d (h : heap) :
  metric self = metric_fn d ->
  fit self X (Some y) h
  = let est := _init_estimator self in
    let d' := _fit_metric d (samples_of (load X h)) in
    let '(lx, h1) := deepcopy X h in
    let '(ly, h2) := deepcopy y h1 in
    let self1 :=
      set__fitted_with_distances false
        (set__fit_y (Some ly)
           (set__fit_X lx
              (set_metric (metric_fn d')
                 (set__fitted_with_distances true (set__estimator est self))))) in
    (estimator_fit self1 est (zeros2 (len (load X h2)) (len (load X h2)))
                   (load_opt (Some y) h2), h2).
Proof.
  intros Hm. unfold fit, _fit.
  cbn [metric set__fitted_with_distances set__estimator]. rewrite Hm.
  unfold deepcopy_opt.
  destruct (deepcopy X h) as [lx h1]. destruct (deepcopy y h1) as [ly h2].
  reflexivity.
Qed.

(** The copies [fit] makes, and the estimator it leaves when the index
    accepts the all-zero matrix. *)
Lemma fit_state (self : Estimator) (X y : loc) oX oy d (h : heap) :
  metric self = metric_fn d ->
  h !! X = Some oX -> h !! y = Some oy ->
  sk_validate (_init_estimator self) (zeros2 (len oX) (len oX)) (Some oy)
  = Ok tt ->
  exists self' h' lx ly,
    fit self X (Some y) h = (Ok tt, self', h') /\
    _fit_X self' = Some lx /\ _fit_y self' = Some (Some ly) /\
    h !! lx = None /\ h !! ly = None /\ lx <> ly /\
    h' !! lx = Some oX /\ h' !! ly = Some oy /\
    (forall l, is_Some (h !! l) -> h' !! l = h !! l) /\
    _estimator self'
    = Some (sk_record (_init_estimator self) (zeros2 (len oX) (len oX))
                      (Some oy)) /\
    metric self' = metric_fn (_fit_metric d (samples_of oX)) /\
    _fitted_with_distances self' = Some false.
Proof.
  intros Hm HX Hy Hv. rewrite (fit_deferred self X y d h Hm). cbv zeta.
  destruct (deepcopy X h) as [lx h1] eqn:E1.
  destruct (deepcopy_fresh _ _ _ _ _ HX E1) as (Hlx & Hlx1 & Hold1).
  assert (Hkeep1 : forall l o, h !! l = Some o -> h1 !! l = Some o).
  { intros l o Hl. rewrite Hold1; [done|]. intros ->. congruence. }
  pose proof (Hkeep1 _ _ Hy) as Hy1.
  destruct (deepcopy y h1) as [ly h2] eqn:E2.
  destruct (deepcopy_fresh _ _ _ _ _ Hy1 E2) as (Hly & Hly2 & Hold2).
  assert (Hkeep2 : forall l o, h1 !! l = Some o -> h2 !! l = Some o).
  { intros l o Hl. rewrite Hold2; [done|]. intros ->. congruence. }
  assert (Hne : lx <> ly) by (intros ->; congruence).
  assert (Hly0 : h !! ly = None).
  { destruct (h !! ly) as [o|] eqn:E; [|done].
    apply Hkeep1 in E. congruence. }
  assert (HloadX : load X h2 = oX).
  { unfold load. by rewrite (Hkeep2 _ _ (Hkeep1 _ _ HX)). }
  assert (Hloady : load_opt (Some y) h2 = Some oy).
  { unfold load_opt. simpl. by apply Hkeep2. }
  assert (HloadX0 : load X h = oX) by (unfold load; by rewrite HX).
  rewrite HloadX, Hloady, HloadX0, estimator_fit_ok by exact Hv.
  eexists _, h2, lx, ly. split; [reflexivity|]. cbn.
  split; [reflexivity|]. split; [reflexivity|].
  split; [exact Hlx|]. split; [exact Hly0|]. split; [exact Hne|].
  split; [by apply Hkeep2|]. split; [exact Hly2|].
  split; [intros l [o Hl]; rewrite Hl; by apply Hkeep2, Hkeep1|].
  split; [reflexivity|]. split; reflexivity.
Qed.

(** X4. When the index accepts the all-zero [len(X)] by [len(X)]
    matrix, [fit] with a metric other than ['precomputed'] returns and
    keeps its own copies of the training data: [_fit_X] and [_fit_y]
    name two new, distinct objects holding what [X] and [y] held, no
    existing object is written, the index is fitted on the all-zero
    matrix, and [_fitted_with_distances] is [False]. *)
Theorem fit_copies_data_and_defers_distances
    (self : Estimator) (X y : loc) oX oy d (h : heap) :
  metric self = metric_fn d ->
  h !! X = Some oX -> h !! y = Some oy ->
  sk_validate (_init_estimator self) (zeros2 (len oX) (len oX)) (Some oy)
  = Ok tt ->
  exists self' h' lx ly est,
    fit self X (Some y) h = (Ok tt, self', h') /\
    _fit_X self' = Some lx /\ _fit_y self' = Some (Some ly) /\
    h !! lx = None /\ h !! ly = None /\ lx <> ly /\
    h' !! lx = Some oX /\ h' !! ly = Some oy /\
    (forall l, is_Some (h !! l) -> h' !! l = h !! l) /\
    _estimator self' = Some est /\
    sk_fit_X est = Some (zeros2 (len oX) (len oX)) /\
    _fitted_with_distances self' = Some false.
Proof.
  intros Hm HX Hy Hv.
  destruct (fit_state self X y oX oy d h Hm HX Hy Hv)
    as (self' & h' & lx & ly & Hfit & Hfx & Hfy & Hlx & Hly & Hne & Hx' & Hy'
        & Hold & Hest & _ & Hflag).
  exists self', h', lx, ly. eexists.
  split; [exact Hfit|]. split; [exact Hfx|]. split; [exact Hfy|].
  split; [exact Hlx|]. split; [exact Hly|]. split; [exact Hne|].
  split; [exact Hx'|]. split; [exact Hy'|]. split; [exact Hold|].
  split; [exact Hest|]. split; [reflexivity|exact Hflag].
Qed.

(** X5. [_refit_with_distances] is idempotent: running it on the
    estimator it leaves gives the same outcome and the same estimator. *)
Theorem refit_with_distances_idempotent (self : Estimator) (h : heap) :
  _refit_with_distances (_refit_with_distances self h).2 h
  = _refit_with_distances self h.
Proof.
  unfold _refit_with_distances.
  destruct (_fitted_with_distances self) as [[|]|] eqn:Ef; simpl;
    try (rewrite Ef; reflexivity).
  destruct (metric self) eqn:Em; simpl; [rewrite Ef, Em; reflexivity|].
  destruct (_fit_X self) as [lx|] eqn:Ex; simpl;
    [|rewrite Ef, Em, Ex; reflexivity].
  destruct (_estimator self) as [est|] eqn:Ee; simpl;
    [|rewrite Ef, Em, Ex, Ee; reflexivity].
  destruct (_fit_y self) as [ly|] eqn:Ey; simpl;
    [|rewrite Ef, Em, Ex, Ee, Ey; reflexivity].
  unfold estimator_fit, sk_fit.
  destruct (sk_validate est _ (load_opt ly h)) as [[]|e] eqn:Ev; simpl.
  - reflexivity.
  - rewrite Ef, Em, Ex, Ee, Ey. simpl. rewrite Ev. reflexivity.
Qed.

(** What the refit does when distances were deferred and the index
    accepts them. *)
Lemma refit_with_distances_deferred (self : Estimator) d lx est ly (h : heap) :
  _fitted_with_distances self = Some false ->
  metric self = metric_fn d ->
  _fit_X self = Some lx -> _estimator self = Some est -> _fit_y self = Some ly ->
  sk_validate est (PairwiseMetric d (samples_of (load lx h))
                                  (samples_of (load lx h)))
              (load_opt ly h) = Ok tt ->
  _refit_with_distances self h
  = (Ok tt,
     set__fitted_with_distances true
       (set__estimator
          (sk_record est (PairwiseMetric d (samples_of (load lx h))
                                           (samples_of (load lx h)))
                     (load_opt ly h)) self)).
Proof.
  intros Hf Hm Hx He Hy Hv. unfold _refit_with_distances.
  rewrite Hf, Hm, Hx, He, Hy. simpl. rewrite estimator_fit_ok by exact Hv.
  reflexivity.
Qed.

Lemma refit_unfitted (self : Estimator) (h : heap) :
  _estimator self = None -> (_refit_with_distances self h).2 = self.
Proof.
  intros He. unfold _refit_with_distances.
  destruct (_fitted_with_distances self) as [[|]|]; simpl; try reflexivity.
  destruct (metric self); simpl; [reflexivity|].
  destruct (_fit_X self); simpl; [|reflexivity].
  rewrite He. reflexivity.
Qed.

Lemma query_prologue_state (self : Estimator) (X : option loc) (h : heap) :
  (query_prologue self X h).2
  = match X with
    | None => (_refit_with_distances self h).2
    | Some _ => self
    end.
Proof.
  unfold query_prologue, _check_is_fitted.
  destruct (_estimator self) as [est|] eqn:He.
  - destruct X as [x|]; simpl.
    + reflexivity.
    + destruct (_refit_with_distances self h) as [[[]|e] s]; reflexivity.
  - simpl. destruct X; [reflexivity|]. by rewrite refit_unfitted.
Qed.

Lemma kneighbors_state (self : Estimator) k rd (h : heap) :
  (kneighbors self None k rd h).2 = (_refit_with_distances self h).2.
Proof.
  pose proof (query_prologue_state self None h) as Hq.
  unfold kneighbors. destruct (query_prologue self None h) as [p s].
  exact Hq.
Qed.

(** X6. The only change a neighbor query makes to the estimator is the
    refit: called without a query set, each of the four queries leaves
    the estimator [_refit_with_distances] leaves; called with a query
    set, it leaves the estimator as it was. *)
Theorem queries_change_state_only_by_refit
    (self : Estimator) (X : option loc) k r mode rd (h : heap) :
  let after := match X with
               | None => (_refit_with_distances self h).2
               | Some _ => self
               end in
  (kneighbors self X k rd h).2 = after /\
  (kneighbors_graph self X k mode h).2 = after /\
  (radius_neighbors self X r rd h).2 = after /\
  (radius_neighbors_graph self X r mode h).2 = after.
Proof.
  intros after. pose proof (query_prologue_state self X h) as Hq.
  unfold kneighbors, kneighbors_graph, radius_neighbors, radius_neighbors_graph.
  destruct (query_prologue self X h) as [p s]. simpl in *.
  repeat split; exact Hq.
Qed.

End FitAndRefit.

Section LazyDistances.
Context `{Collaborators}.

(** X7. After [fit] with a metric other than ['precomputed'], when the
    index accepts first the all-zero matrix and then the matrix of
    pairwise distances, the first [kneighbors()] without a query set
    refits the index on the pairwise distances between the samples that
    [X] held when [fit] was called, computed with the fitted metric,
    and sets [_fitted_with_distances]; a second one leaves the
    estimator as the first left it. *)
Theorem self_query_after_fit_uses_real_distances
    (self : Estimator) (X y : loc) oX oy d (h : heap) k rd :
  metric self = metric_fn d ->
  h !! X = Some oX -> h !! y = Some oy ->
  let zeros := zeros2 (len oX) (len oX) in
  let distances :=
    PairwiseMetric (_fit_metric d (samples_of oX)) (samples_of oX)
                   (samples_of oX) in
  sk_validate (_init_estimator self) zeros (Some oy) = Ok tt ->
  sk_validate (sk_record (_init_estimator self) zeros (Some oy)) distances
              (Some oy) = Ok tt ->
  exists fitted h',
    fit self X (Some y) h = (Ok tt, fitted, h') /\
    let after := (kneighbors fitted None k rd h').2 in
    (exists est,
       _estimator after = Some est /\ sk_fit_X est = Some distances) /\
    _fitted_with_distances after = Some true /\
    (kneighbors after None k rd h').2 = after.
Proof.
  intros Hm HX Hy zeros distances Hv1 Hv2.
  destruct (fit_state self X y oX oy d h Hm HX Hy Hv1)
    as (fitted & h' & lx & ly & Hfit & Hfx & Hfy & _ & _ & _ & Hlx & Hly
        & _ & Hest & Hmet & Hflag).
  exists fitted, h'. split; [exact Hfit|]. intros after.
  assert (Hafter : after = (_refit_with_distances fitted h').2).
  { unfold after. apply kneighbors_state. }
  assert (HloadX : load lx h' = oX) by (unfold load; by rewrite Hlx).
  assert (Hloady : load_opt (Some ly) h' = Some oy) by exact Hly.
  assert (Hv : sk_validate
                 (sk_record (_init_estimator self) zeros (Some oy))
                 (PairwiseMetric (_fit_metric d (samples_of oX))
                    (samples_of (load lx h')) (samples_of (load lx h')))
                 (load_opt (Some ly) h') = Ok tt).
  { rewrite HloadX, Hloady. exact Hv2. }
  pose proof (refit_with_distances_deferred fitted _ lx _ (Some ly) h'
                Hflag Hmet Hfx Hest Hfy Hv) as Hre.
  rewrite Hre in Hafter. simpl in Hafter.
  split; [|split].
  - rewrite Hafter. eexists. split; [reflexivity|]. simpl.
    rewrite HloadX. reflexivity.
  - rewrite Hafter. reflexivity.
  - rewrite kneighbors_state, Hafter. reflexivity.
Qed.

End LazyDistances.

Section FunctionalPredict.
Context `{Collaborators}.
Variable _query : Estimator -> pyobj -> heap -> result (matrix * list (list nat)).

Lemma np_where_from (mask : list bool) (s i : nat) :
  i ∈ omap (fun p : nat * bool => if p.2 then Some p.1 else None)
           (zip (seq s (length mask)) mask)
  <-> s <= i /\ mask !! (i - s) = Some true.
Proof.
  revert s. induction mask as [|b mask IH]; intros s; simpl.
  - split; [intros Hi; inversion Hi|intros [_ Hi]; discriminate].
  - assert (Hstep : i ∈ omap (fun p : nat * bool => if p.2 then Some p.1 else None)
                               (zip (seq (S s) (length mask)) mask)
                    <-> s <= i /\ i <> s /\ mask !! (i - S s) = Some true).
    { rewrite IH. split; [intros [? ?]|intros (? & ? & ?)]; repeat split; try lia; done. }
    destruct b; simpl.
    + rewrite elem_of_cons, Hstep. split.
      * intros [->|(Hle & Hne & Hl)].
        -- split; [lia|]. by rewrite Nat.sub_diag.
        -- split; [lia|]. replace (i - s) with (S (i - S s)) by lia. done.
      * intros [Hle Hl]. destruct (decide (i = s)) as [->|Hne]; [by left|].
        right. repeat split; try lia.
        replace (i - s) with (S (i - S s)) in Hl by lia. done.
    + rewrite Hstep. split.
      * intros (Hle & Hne & Hl). split; [lia|].
        replace (i - s) with (S (i - S s)) by lia. done.
      * intros [Hle Hl]. destruct (decide (i = s)) as [->|Hne].
        -- rewrite Nat.sub_diag in Hl. discriminate.
        -- repeat split; try lia.
           replace (i - s) with (S (i - S s)) in Hl by lia. done.
Qed.

Lemma np_where_spec (mask : list bool) (i : nat) :
  i ∈ np_where mask <-> mask !! i = Some true.
Proof.
  unfold np_where. rewrite np_where_from, Nat.sub_0_r.
  split; [by intros [_ ?]|intros; split; [lia|done]].
Qed.

(** X8. Without an outlier response, [_outlier_response] raises the
    "No neighbors found" [ValueError], and the indices formatted into
    its message are exactly the positions of the query samples whose
    neighbor list is empty. *)
Theorem outlier_response_names_samples_without_neighbors
    (self : Estimator) (neighbors : list (list nat)) :
  outlier_response self = None ->
  exists index,
    _outlier_response self neighbors
    = Raise (ValueError no_neighbors_message index) /\
    forall i, i ∈ index <-> neighbors !! i = Some [].
Proof.
  intros Hnone. unfold _outlier_response. rewrite Hnone.
  eexists. split; [reflexivity|].
  intros i. rewrite np_where_spec, list_lookup_fmap.
  destruct (neighbors !! i) as [[|j idx]|]; simpl; split; congruence.
Qed.

Lemma predict_sample_empty (self : Estimator) neighbors distances i (h : heap) :
  predict_sample self neighbors distances i [] h
  = (_outlier_response self neighbors, h).
Proof. reflexivity. Qed.

End FunctionalPredict.

Section DistanceWeights.

(** Finite observations, written with real numbers. *)
Definition inj (s : list (list R)) : sample :=
  (fun r : list R => Fin <$> r) <$> s.

Definition zero_like (s : list (list R)) : list (list R) :=
  (fun r : list R => (fun _ => 0%R) <$> r) <$> s.

Lemma zero_like_shape (a b : list (list R)) :
  length <$> a = length <$> b -> zero_like a = zero_like b.
Proof.
  revert b. induction a as [|r a IH]; intros [|r' b] Hs; try discriminate;
    [reflexivity|].
  simpl in Hs. injection Hs as Hr Hs. unfold zero_like. simpl. f_equal.
  - clear -Hr. revert r' Hr.
    induction r as [|x r IH]; intros [|y r'] Hr; try discriminate;
      [reflexivity|].
    simpl. f_equal. apply IH. by injection Hr.
  - by apply IH.
Qed.

Lemma scale_zero (s : list (list R)) :
  sample_map (xmul (Fin 0)) (inj s) = inj (zero_like s).
Proof.
  unfold sample_map, inj, zero_like.
  induction s as [|r s IH]; simpl; [reflexivity|]. f_equal; [|exact IH].
  clear. induction r as [|x r IH]; simpl; [reflexivity|].
  f_equal; [|exact IH]. f_equal. lra.
Qed.

Lemma scale_one (s : list (list R)) :
  sample_map (xmul (Fin 1)) (inj s) = inj s.
Proof.
  unfold sample_map, inj.
  induction s as [|r s IH]; simpl; [reflexivity|]. f_equal; [|exact IH].
  clear. induction r as [|x r IH]; simpl; [reflexivity|].
  f_equal; [|exact IH]. f_equal. lra.
Qed.

Lemma add_zero_l (s : list (list R)) :
  sample_map2 xadd (inj (zero_like s)) (inj s) = inj s.
Proof.
  unfold sample_map2, inj, zero_like.
  induction s as [|r s IH]; simpl; [reflexivity|]. f_equal; [|exact IH].
  clear. induction r as [|x r IH]; simpl; [reflexivity|].
  f_equal; [|exact IH]. f_equal. lra.
Qed.

Lemma add_zero_r (s : list (list R)) :
  sample_map2 xadd (inj s) (inj (zero_like s)) = inj s.
Proof.
  unfold sample_map2, inj, zero_like.
  induction s as [|r s IH]; simpl; [reflexivity|]. f_equal; [|exact IH].
  clear. induction r as [|x r IH]; simpl; [reflexivity|].
  f_equal; [|exact IH]. f_equal. lra.
Qed.

Lemma add_zero_zero (s : list (list R)) :
  sample_map2 xadd (inj (zero_like s)) (inj (zero_like s)) = inj (zero_like s).
Proof.
  unfold sample_map2, inj, zero_like.
  induction s as [|r s IH]; simpl; [reflexivity|]. f_equal; [|exact IH].
  clear. induction r as [|x r IH]; simpl; [reflexivity|].
  f_equal; [|exact IH]. f_equal. lra.
Qed.

Lemma foldl_add_zeros (acc : sample) (s : list (list R)) n :
  sample_map2 xadd acc (inj (zero_like s)) = acc ->
  foldl (sample_map2 xadd) acc (replicate n (inj (zero_like s))) = acc.
Proof.
  intros Hacc. induction n as [|n IH]; simpl; [reflexivity|].
  rewrite Hacc. exact IH.
Qed.

(** The sum of a batch in which one sample is [s] and the others are
    zero functions on the same grid. *)
Lemma fd_sum_single (s : list (list R)) n m :
  fd_sum (replicate n (inj (zero_like s)) ++ inj s :: replicate m (inj (zero_like s)))
  = inj s.
Proof.
  destruct n as [|n]; simpl.
  - apply foldl_add_zeros, add_zero_r.
  - rewrite foldl_app. rewrite foldl_add_zeros by apply add_zero_zero.
    simpl. rewrite add_zero_l. apply foldl_add_zeros, add_zero_r.
Qed.

Lemma indicator_no_zero (d : vector) :
  has_zero d = false -> indicator_weights d = replicate (length d) (Fin 0).
Proof.
  unfold has_zero, indicator_weights.
  induction d as [|x d IH]; simpl; [reflexivity|].
  intros Hz. apply orb_false_iff in Hz as [Hx Hd].
  rewrite Hx. f_equal. by apply IH.
Qed.

Lemma xsum_zeros_app n (v : vector) r :
  xsum v = Fin r -> xsum (replicate n (Fin 0) ++ v) = Fin r.
Proof.
  intros Hv. induction n as [|n IH]; simpl; [exact Hv|].
  unfold xsum in *. simpl. rewrite IH. simpl. f_equal. lra.
Qed.

Lemma xsum_single n m :
  xsum (replicate n (Fin 0) ++ Fin 1 :: replicate m (Fin 0)) = Fin 1.
Proof.
  apply xsum_zeros_app.
  assert (Hm : xsum (replicate m (Fin 0)) = Fin 0).
  { rewrite <- (app_nil_r (replicate m (Fin 0))). by apply xsum_zeros_app. }
  unfold xsum in *. simpl. rewrite Hm. simpl. f_equal. lra.
Qed.

Lemma div_by_one (v : vector) : (fun x => xdiv x (Fin 1)) <$> v = v.
Proof.
  induction v as [|x v IH]; simpl; [reflexivity|].
  f_equal; [apply xdiv_one|exact IH].
Qed.

Lemma scale_by_zeros (rp : list (list R)) (r : list (list (list R))) n :
  length r = n ->
  Forall (fun s => length <$> s = length <$> rp) r ->
  zip_with (fun c => sample_map (xmul c)) (replicate n (Fin 0)) (inj <$> r)
  = replicate n (inj (zero_like rp)).
Proof.
  intros <- Hs. induction Hs as [|s r Hshape _ IH]; simpl; [reflexivity|].
  f_equal; [|exact IH].
  rewrite scale_zero. f_equal. by apply zero_like_shape.
Qed.

Lemma has_zero_app (d1 d2 : vector) :
  has_zero (d1 ++ d2) = has_zero d1 || has_zero d2.
Proof. unfold has_zero. apply existsb_app. Qed.

Lemma indicator_single (d1 d2 : vector) :
  has_zero d1 = false -> has_zero d2 = false ->
  indicator_weights (d1 ++ Fin 0 :: d2)
  = replicate (length d1) (Fin 0) ++ Fin 1 :: replicate (length d2) (Fin 0).
Proof.
  intros H1 H2. unfold indicator_weights. rewrite fmap_app, fmap_cons.
  fold (indicator_weights d1). fold (indicator_weights d2).
  rewrite (indicator_no_zero d1 H1), (indicator_no_zero d2 H2).
  by rewrite xeqb_fin_refl.
Qed.

(** X10. With [weights="distance"], when exactly one neighbor is at
    distance zero and the neighbors' observations are finite and share
    one grid, the prediction is that neighbor's observation, unchanged;
    and the array of distances handed in has been overwritten with the
    weights (1 for that neighbor, 0 for the others). *)
Theorem distance_weighted_prediction_is_exact_match
    (self : Estimator) (neighbors : FDataGrid) (dist : loc) (h : heap)
    (d1 d2 : vector) (r1 r2 : list (list (list R))) (rp : list (list R)) :
  weights self = distance ->
  h !! dist = Some (PArr (d1 ++ Fin 0 :: d2)) ->
  has_zero d1 = false -> has_zero d2 = false ->
  data_matrix neighbors = (inj <$> r1) ++ inj rp :: (inj <$> r2) ->
  length r1 = length d1 -> length r2 = length d2 ->
  Forall (fun s => length <$> s = length <$> rp) (r1 ++ r2) ->
  _prediction_from_neighbors self neighbors dist h
  = (Ok (with_data neighbors [inj rp]),
     <[dist := PArr (indicator_weights (d1 ++ Fin 0 :: d2))]> h).
Proof.
  intros Hw Hd Hz1 Hz2 Hdata Hl1 Hl2 Hshape.
  apply Forall_app in Hshape as [Hs1 Hs2].
  unfold _prediction_from_neighbors. rewrite Hw.
  assert (Hz : has_zero (d1 ++ Fin 0 :: d2) = true).
  { rewrite has_zero_app.
    change (has_zero (Fin 0 :: d2)) with (xeqb (Fin 0) (Fin 0) || has_zero d2).
    rewrite xeqb_fin_refl. apply orb_true_r. }
  rewrite (distance_weights_zero _ _ _ Hd Hz).
  unfold _average. cbv zeta. rewrite !load_vector_insert.
  rewrite (indicator_single _ _ Hz1 Hz2).
  rewrite xsum_single, div_by_one, insert_insert_eq.
  unfold fd_scale. rewrite Hdata.
  rewrite !length_app. simpl. rewrite !length_replicate, !length_fmap.
  rewrite Hl1, Hl2, Nat.eqb_refl. simpl. unfold with_data at 2. simpl.
  rewrite zip_with_app by (rewrite length_replicate, length_fmap; done).
  simpl. rewrite (scale_by_zeros rp r1 _ Hl1 Hs1).
  rewrite (scale_by_zeros rp r2 _ Hl2 Hs2).
  rewrite scale_one, fd_sum_single.
  reflexivity.
Qed.

End DistanceWeights.

Section UniformPrediction.
Variable _query : Estimator -> pyobj -> heap -> result (matrix * list (list nat)).

Definition take_samples (fy : FDataGrid) (idx : list nat) : list sample :=
  (fun i => default [] (data_matrix fy !! i)) <$> idx.

(** The part of the prediction batch that one query sample
    contributes under uniform weights. *)
Definition block (fy r : FDataGrid) (idx : list nat) : list sample :=
  match idx with
  | [] => data_matrix r
  | _ => [fd_mean (take_samples fy idx)]
  end.

(** The codomain dimension of one observation. *)
Definition codomain (s : sample) : nat := length (default [] (head s)).

Lemma fd_take_valid (fy : FDataGrid) (idx : list nat) :
  Forall (fun i => i < length (data_matrix fy)) idx ->
  fd_take fy idx = Ok (with_data fy (take_samples fy idx)).
Proof.
  intros Hv. unfold fd_take, take_samples.
  assert (Hm : mapM (fun i => match data_matrix fy !! i with
                              | Some s => Ok s
                              | None => Raise IndexError
                              end) idx
               = Ok ((fun i => default [] (data_matrix fy !! i)) <$> idx)).
  { induction Hv as [|i idx Hi _ IH]; [reflexivity|].
    simpl. apply lookup_lt_is_Some_2 in Hi as [s Hs].
    rewrite Hs. simpl. rewrite IH. reflexivity. }
  rewrite Hm. reflexivity.
Qed.

Lemma alloc_rows_spec (rows : matrix) (h : heap) :
  length (alloc_rows rows h).1 = length rows /\
  forall l o, h !! l = Some o -> (alloc_rows rows h).2 !! l = Some o.
Proof.
  revert h. induction rows as [|r rows IH]; intros h; [done|].
  change (alloc_rows (r :: rows) h)
    with (let '(l, h1) := alloc (PArr r) h in
          let '(ls, h2) := alloc_rows rows h1 in (l :: ls, h2)).
  destruct (alloc (PArr r) h) as [l h1] eqn:Ea.
  destruct (alloc_fresh _ _ _ _ Ea) as (Hnew & _ & Hold).
  destruct (IH h1) as [Hlen Hkeep].
  destruct (alloc_rows rows h1) as [ls h2]. simpl in *.
  split; [by rewrite Hlen|].
  intros k o Hk. apply Hkeep. rewrite Hold; [done|]. intros ->. congruence.
Qed.

(** A grid without [nan] is equal to itself. *)
Lemma xeqb_refl x : x <> NaN -> xeqb x x = true.
Proof.
  destruct x as [a|s|]; intros Hx; [apply xeqb_fin_refl| |done].
  simpl. by destruct s.
Qed.

Lemma array_equal_refl (v : vector) :
  Forall (fun x => x <> NaN) v -> array_equal v v = true.
Proof.
  intros Hv. unfold array_equal. rewrite Nat.eqb_refl.
  cbn [andb]. induction Hv as [|x v Hx _ IH]; [reflexivity|].
  cbn [zip zip_with forallb fst snd]. by rewrite xeqb_refl, IH.
Qed.

Lemma grid_points_equal_refl (g : list vector) :
  Forall (Forall (fun x => x <> NaN)) g -> grid_points_equal g g = true.
Proof.
  intros Hg. unfold grid_points_equal. rewrite Nat.eqb_refl.
  cbn [andb]. induction Hg as [|v g Hv _ IH]; [reflexivity|].
  cbn [zip zip_with forallb fst snd]. by rewrite array_equal_refl, IH.
Qed.

(** The mean of observations of one codomain dimension has that
    dimension. *)
Lemma codomain_map2 op (a b : sample) c :
  codomain a = c -> codomain b = c -> codomain (sample_map2 op a b) = c.
Proof.
  unfold codomain, sample_map2.
  destruct a as [|ra a], b as [|rb b]; simpl; intros Ha Hb; try lia.
  rewrite length_zip_with. lia.
Qed.

Lemma codomain_map f (a : sample) : codomain (sample_map f a) = codomain a.
Proof.
  unfold codomain, sample_map. destruct a as [|ra a]; simpl; [done|].
  by rewrite length_fmap.
Qed.

Lemma codomain_foldl (l : list sample) (s : sample) c :
  codomain s = c -> Forall (fun t => codomain t = c) l ->
  codomain (foldl (sample_map2 xadd) s l) = c.
Proof.
  intros Hs Hl. revert s Hs. induction Hl as [|t l Ht _ IH]; intros s Hs; [done|].
  simpl. apply IH. by apply codomain_map2.
Qed.

Lemma codomain_mean (l : list sample) c :
  l <> [] -> Forall (fun t => codomain t = c) l -> codomain (fd_mean l) = c.
Proof.
  intros Hne Hl. unfold fd_mean. rewrite codomain_map.
  destruct l as [|s l]; [done|]. apply Forall_cons in Hl as [Hs Hl].
  simpl. by apply codomain_foldl.
Qed.

Section Loop.
Variables (self : Estimator) (fy : FDataGrid) (ly : loc).
Variables (neighbors : list (list nat)) (distances : list loc) (h : heap).
Variable c : nat.
Hypothesis Hw : weights self = uniform.
Hypothesis Hfy : _fit_y self = Some (Some ly).
Hypothesis Hly : h !! ly = Some (PFData fy).
Hypothesis Hgrid : Forall (Forall (fun x => x <> NaN)) (grid_points fy).
Hypothesis Hcod : Forall (fun s => codomain s = c) (data_matrix fy).

(** What the container accepts next to the targets: a batch on their
    grid, with at least one observation, of their codomain
    dimension. *)
Definition conforming (b : FDataGrid) : Prop :=
  grid_points b = grid_points fy /\ data_matrix b <> [] /\ dim_codomain b = c.

Lemma concatenate_conforming a b :
  conforming a -> conforming b ->
  concatenate a b = Ok (with_data a (data_matrix a ++ data_matrix b)) /\
  conforming (with_data a (data_matrix a ++ data_matrix b)).
Proof.
  intros (Hga & Hna & Hca) (Hgb & Hnb & Hcb). split.
  - unfold concatenate.
    rewrite Hga, Hgb, grid_points_equal_refl by exact Hgrid.
    rewrite Hca, Hcb, Nat.eqb_refl. reflexivity.
  - split; [exact Hga|]. split.
    + simpl. destruct (data_matrix a); [done|discriminate].
    + unfold dim_codomain in *. simpl.
      destruct (data_matrix a) as [|s l]; [done|]. exact Hca.
Qed.

Lemma take_samples_codomain idx :
  Forall (fun j => j < length (data_matrix fy)) idx ->
  Forall (fun t => codomain t = c) (take_samples fy idx).
Proof.
  intros Hv. unfold take_samples. apply Forall_fmap.
  eapply Forall_impl; [exact Hv|]. intros j Hj. simpl.
  apply lookup_lt_is_Some_2 in Hj as [s Hs]. rewrite Hs. simpl.
  rewrite Forall_forall in Hcod. apply Hcod.
  apply list_elem_of_lookup. eauto.
Qed.

(** A query sample with neighbors is predicted by the mean of their
    targets, whether an outlier response is configured or not. *)
Lemma predict_sample_neighbors i idx :
  idx <> [] ->
  Forall (fun j => j < length (data_matrix fy)) idx ->
  i < length distances ->
  predict_sample self neighbors distances i idx h
  = (Ok (with_data fy [fd_mean (take_samples fy idx)]), h) /\
  conforming (with_data fy [fd_mean (take_samples fy idx)]).
Proof.
  intros Hne Hv Hi. split.
  - destruct idx as [|j idx]; [done|].
    apply lookup_lt_is_Some_2 in Hi as [d Hd].
    unfold predict_sample. cbn [length Nat.eqb].
    unfold fit_y_fdata. rewrite Hfy. simpl. rewrite Hly. simpl.
    rewrite (fd_take_valid fy (j :: idx) Hv). rewrite Hd.
    unfold _prediction_from_neighbors. rewrite Hw.
    unfold _average. reflexivity.
  - split; [reflexivity|]. split; [discriminate|].
    unfold dim_codomain. simpl. apply codomain_mean.
    + unfold take_samples. destruct idx; [done|discriminate].
    + by apply take_samples_codomain.
Qed.

Lemma predict_rest_uniform r rest :
  outlier_response self = Some r -> conforming r ->
  Forall (Forall (fun j => j < length (data_matrix fy))) rest ->
  forall i pred,
    conforming pred ->
    i + length rest < length distances ->
    exists out,
      predict_rest self neighbors distances i rest pred h = (Ok out, h) /\
      data_matrix out = data_matrix pred ++ concat (block fy r <$> rest).
Proof.
  intros Hout Hr. induction 1 as [|idx rest Hidx _ IH]; intros i pred Hp Hi.
  - exists pred. split; [reflexivity|]. simpl. by rewrite app_nil_r.
  - simpl in Hi.
    assert (Hb : exists b, predict_sample self neighbors distances (i + 1) idx h
                           = (Ok b, h) /\ conforming b /\
                           data_matrix b = block fy r idx).
    { destruct idx as [|j idx].
      - exists r. split; [|by split].
        unfold predict_sample, _outlier_response. simpl. by rewrite Hout.
      - destruct (predict_sample_neighbors (i + 1) (j :: idx)) as [Hs Hc];
          [done|done|lia|]. eauto. }
    destruct Hb as (b & Hb & Hcb & Hdata).
    destruct (concatenate_conforming pred b Hp Hcb) as [Hcat Hgood].
    simpl. rewrite Hb, Hcat.
    destruct (IH (S i) _ Hgood) as (out & Hout' & Hd); [lia|].
    exists out. split; [exact Hout'|].
    rewrite Hd. simpl. rewrite Hdata. by rewrite <- app_assoc.
Qed.

Lemma predict_rest_isolated rest :
  outlier_response self = None ->
  Forall (Forall (fun j => j < length (data_matrix fy))) rest ->
  [] ∈ rest ->
  forall i pred,
    conforming pred ->
    i + length rest < length distances ->
    predict_rest self neighbors distances i rest pred h
    = (_outlier_response self neighbors, h).
Proof.
  intros Hout. induction 1 as [|idx rest Hidx _ IH]; intros Hin i pred Hp Hi.
  - inversion Hin.
  - simpl in Hi. destruct idx as [|j idx].
    + simpl. unfold predict_sample. cbn [length Nat.eqb].
      unfold _outlier_response. rewrite Hout. reflexivity.
    + apply elem_of_cons in Hin as [Hin|Hin]; [discriminate|].
      destruct (predict_sample_neighbors (i + 1) (j :: idx)) as [Hs Hc];
        [done|done|lia|].
      destruct (concatenate_conforming pred _ Hp Hc) as [Hcat Hgood].
      simpl. rewrite Hs, Hcat. apply IH; [done|done|lia].
Qed.

End Loop.

(** X9. With uniform weights and no outlier response configured, on an
    estimator fitted on functional targets whose grid holds no [nan],
    if the query finds no neighbor for some sample,
    [_functional_predict] raises the [ValueError] of
    [_outlier_response], whose message names the samples without
    neighbors: the samples before the first of them are predicted, and
    no batch is returned. *)
Theorem functional_predict_without_neighbors_raises
    (self : Estimator) (X ly : loc) (fy : FDataGrid) (h : heap)
    (dist : matrix) (neighbors : list (list nat)) (c : nat) :
  weights self = uniform ->
  outlier_response self = None ->
  _fit_y self = Some (Some ly) ->
  h !! ly = Some (PFData fy) ->
  Forall (Forall (fun x => x <> NaN)) (grid_points fy) ->
  Forall (fun s => codomain s = c) (data_matrix fy) ->
  _query self (load X h) h = Ok (dist, neighbors) ->
  length dist = length neighbors ->
  Forall (Forall (fun j => j < length (data_matrix fy))) neighbors ->
  [] ∈ neighbors ->
  (_functional_predict _query self X h).1
  = Raise (ValueError no_neighbors_message
             (np_where ((fun n => Nat.eqb (length n) 0) <$> neighbors))).
Proof.
  intros Hw Hout Hfy Hly Hgrid Hcod Hq Hlen Hvalid Hin.
  assert (Hresp : _outlier_response self neighbors
                  = Raise (ValueError no_neighbors_message
                             (np_where ((fun n => Nat.eqb (length n) 0)
                                          <$> neighbors)))).
  { unfold _outlier_response. by rewrite Hout. }
  rewrite <- Hresp.
  unfold _functional_predict. rewrite Hq.
  destruct (alloc_rows_spec dist h) as [Hl Hkeep].
  destruct (alloc_rows dist h) as [distances h1]. simpl in Hl, Hkeep.
  destruct neighbors as [|idx0 rest]; [inversion Hin|].
  apply Forall_cons in Hvalid as [Hv0 Hvrest]. simpl in Hlen.
  pose proof (Hkeep _ _ Hly) as Hly1.
  destruct idx0 as [|j idx0].
  - unfold predict_sample. cbn [length Nat.eqb]. rewrite Hresp. reflexivity.
  - apply elem_of_cons in Hin as [Hin|Hin]; [discriminate|].
    destruct (predict_sample_neighbors self fy ly ((j :: idx0) :: rest)
                distances h1 c Hw Hfy Hly1 Hcod 0 (j :: idx0))
      as [Hs Hc]; [done|done|lia|].
    rewrite Hs.
    rewrite (predict_rest_isolated self fy ly ((j :: idx0) :: rest) distances h1 c
               Hw Hfy Hly1 Hgrid Hcod rest Hout Hvrest Hin 0); [done|done|].
    simpl. lia.
Qed.

(** X11. With uniform weights and an outlier response configured that
    the container accepts next to the targets (it is on their grid,
    which holds no [nan], has an observation, and has their codomain
    dimension), [_functional_predict] returns one batch holding, in the
    order of the query samples, the outlier response's observations for
    every sample without neighbors and the mean of the neighbors'
    targets for every other sample. *)
Theorem functional_predict_uniform_batch
    (self : Estimator) (X ly : loc) (fy r : FDataGrid) (h : heap)
    (dist : matrix) (neighbors : list (list nat)) (c : nat) :
  weights self = uniform ->
  outlier_response self = Some r ->
  _fit_y self = Some (Some ly) ->
  h !! ly = Some (PFData fy) ->
  Forall (Forall (fun x => x <> NaN)) (grid_points fy) ->
  Forall (fun s => codomain s = c) (data_matrix fy) ->
  grid_points r = grid_points fy ->
  data_matrix r <> [] ->
  dim_codomain r = c ->
  _query self (load X h) h = Ok (dist, neighbors) ->
  neighbors <> [] ->
  length dist = length neighbors ->
  Forall (Forall (fun j => j < length (data_matrix fy))) neighbors ->
  exists pred,
    (_functional_predict _query self X h).1 = Ok pred /\
    data_matrix pred = concat (block fy r <$> neighbors).
Proof.
  intros Hw Hout Hfy Hly Hgrid Hcod Hrg Hrn Hrc Hq Hne Hlen Hvalid.
  assert (Hr : conforming fy c r) by (by split).
  unfold _functional_predict. rewrite Hq.
  destruct (alloc_rows_spec dist h) as [Hl Hkeep].
  destruct (alloc_rows dist h) as [distances h1]. simpl in Hl, Hkeep.
  destruct neighbors as [|idx0 rest]; [done|].
  apply Forall_cons in Hvalid as [Hv0 Hvrest]. simpl in Hlen.
  pose proof (Hkeep _ _ Hly) as Hly1.
  assert (Hb : exists b,
             predict_sample self (idx0 :: rest) distances 0 idx0 h1
             = (Ok b, h1) /\ conforming fy c b /\
             data_matrix b = block fy r idx0).
  { destruct idx0 as [|j idx0].
    - exists r. split; [|by split].
      unfold predict_sample, _outlier_response. simpl. by rewrite Hout.
    - destruct (predict_sample_neighbors self fy ly ((j :: idx0) :: rest)
                  distances h1 c Hw Hfy Hly1 Hcod 0 (j :: idx0))
        as [Hs Hc]; [done|done|lia|]. eauto. }
  destruct Hb as (b & Hb & Hcb & Hdata).
  rewrite Hb.
  destruct (predict_rest_uniform self fy ly (idx0 :: rest) distances h1 c
              Hw Hfy Hly1 Hgrid Hcod r rest Hout Hr Hvrest 0 b Hcb)
    as (out & Ho & Hd); [simpl; lia|].
  rewrite Ho. exists out. split; [reflexivity|].
  rewrite Hd, Hdata. reflexivity.
Qed.

End UniformPrediction.

Section Precomputed.
Context `{Collaborators}.

(** X12. When the index accepts the matrix [X], [fit] with
    [metric='precomputed'] and a target that is not functional returns
    and copies nothing: the store is unchanged, [_fit_X] and [_fit_y]
    are not set, and the index is fitted on the matrix [X] itself. The
    estimator counts as fitted with distances, so a later refit does
    nothing, and query matrices are handed to the index as they are.
    When the index rejects [X], [fit] raises what the index raised and
    the index stays without data. *)
Theorem fit_precomputed_uses_the_matrix_itself
    (self : Estimator) (X : loc) (y : option loc) (h : heap) :
  metric self = precomputed ->
  is_fdata y h = false ->
  (sk_validate (_init_estimator self) (as_matrix (load X h)) (load_opt y h)
   = Ok tt ->
   exists self',
     fit self X y h = (Ok tt, self', h) /\
     _fit_X self' = _fit_X self /\ _fit_y self' = _fit_y self /\
     (exists est, _estimator self' = Some est /\
                  sk_fit_X est = Some (as_matrix (load X h))) /\
     _refit_with_distances self' h = (Ok tt, self') /\
     (forall x h2, _X_to_distances self' x h2 = Ok (as_matrix (load x h2)))) /\
  (forall e,
     sk_validate (_init_estimator self) (as_matrix (load X h)) (load_opt y h)
     = Raise e ->
     exists self',
       fit self X y h = (Raise e, self', h) /\
       _estimator self' = Some (_init_estimator self) /\
       sk_fit_X (_init_estimator self) = None).
Proof.
  intros Hm Hy. split.
  - intros Hv. eexists. split.
    + unfold fit, _fit.
      cbn [metric set__fitted_with_distances set__estimator].
      rewrite Hm, Hy, estimator_fit_ok by exact Hv. reflexivity.
    + cbn. split; [reflexivity|]. split; [reflexivity|].
      split; [eexists; split; reflexivity|].
      split; [reflexivity|].
      intros x h2. unfold _X_to_distances. cbn. rewrite Hm. reflexivity.
  - intros e Hv. eexists. split.
    + unfold fit, _fit.
      cbn [metric set__fitted_with_distances set__estimator].
      rewrite Hm, Hy, (estimator_fit_raise _ _ _ _ e) by exact Hv. reflexivity.
    + cbn. split; reflexivity.
Qed.

End Precomputed.

Section Scoring.
Context `{Collaborators}.
Variable _query : Estimator -> pyobj -> heap -> result (matrix * list (list nat)).


End Scoring.

(** Collaborators for the examples below: an index that accepts the
    square matrices with at least one row and finds no neighbor, and a
    metric that fitting leaves as it is. *)
Definition empty_index : Collaborators :=
  {| sk_validate := fun _ X _ =>
       if Nat.ltb 0 (length X)
          && forallb (fun row : vector => Nat.eqb (length row) (length X)) X
       then Ok tt
       else Raise (ValueError "Precomputed matrix must be square." []);
     sk_kneighbors := fun _ _ _ _ => Ok {| q_distances := None; q_indices := [] |};
     sk_kneighbors_graph := fun _ _ _ _ => Ok [];
     sk_radius_neighbors := fun _ _ _ _ => Ok {| q_distances := None; q_indices := [] |};
     sk_radius_neighbors_graph := fun _ _ _ _ => Ok [];
     sk_predict := fun _ _ => Ok (PArr []);
     sk_predict_proba := fun _ _ => Ok [];
     _fit_metric := fun d _ => d;
     r2_score := fun _ _ _ => Fin 0;
     simps := fun _ _ => Fin 0 |}.

Definition constant_metric : Metric := fun _ _ => Fin 1.

Definition new_estimator : Estimator :=
  __init__ (Some 1%nat) None uniform "auto" 30 (metric_fn constant_metric)
           None None.

Definition training_store : heap :=
  <[0%nat := PMat [[Fin 1]; [Fin 2]]]> {[ 1%nat := PArr [Fin 3; Fin 4] ]}.

Lemma fit_copies_data_and_defers_distances_witness :
  metric new_estimator = metric_fn constant_metric /\
  training_store !! 0%nat = Some (PMat [[Fin 1]; [Fin 2]]) /\
  training_store !! 1%nat = Some (PArr [Fin 3; Fin 4]) /\
  @sk_validate empty_index (_init_estimator new_estimator) (zeros2 2 2)
     (Some (PArr [Fin 3; Fin 4])) = Ok tt /\
  exists self' h' lx ly est,
    @fit empty_index new_estimator 0 (Some 1) training_store
    = (Ok tt, self', h') /\
    _fit_X self' = Some lx /\ _fit_y self' = Some (Some ly) /\
    training_store !! lx = None /\ training_store !! ly = None /\ lx <> ly /\
    h' !! lx = Some (PMat [[Fin 1]; [Fin 2]]) /\
    h' !! ly = Some (PArr [Fin 3; Fin 4]) /\
    (forall l, is_Some (training_store !! l) -> h' !! l = training_store !! l) /\
    _estimator self' = Some est /\
    sk_fit_X est = Some (zeros2 (len (PMat [[Fin 1]; [Fin 2]]))
                                (len (PMat [[Fin 1]; [Fin 2]]))) /\
    _fitted_with_distances self' = Some false.
Proof.
  assert (H0 : training_store !! 0%nat = Some (PMat [[Fin 1]; [Fin 2]]))
    by apply lookup_insert_eq.
  assert (H1 : training_store !! 1%nat = Some (PArr [Fin 3; Fin 4])).
  { unfold training_store. rewrite lookup_insert_ne by lia.
    apply lookup_singleton_eq. }
  split; [reflexivity|]. split; [exact H0|]. split; [exact H1|].
  split; [reflexivity|].
  exact (@fit_copies_data_and_defers_distances empty_index new_estimator
           0%nat 1%nat _ _ constant_metric training_store eq_refl H0 H1
           eq_refl).
Defined.

Lemma self_query_after_fit_uses_real_distances_witness :
  let X := PMat [[Fin 1]; [Fin 2]] in
  let zeros := zeros2 (len X) (len X) in
  let distances :=
    PairwiseMetric (@_fit_metric empty_index constant_metric (samples_of X))
                   (samples_of X) (samples_of X) in
  metric new_estimator = metric_fn constant_metric /\
  training_store !! 0%nat = Some X /\
  training_store !! 1%nat = Some (PArr [Fin 3; Fin 4]) /\
  @sk_validate empty_index (_init_estimator new_estimator) zeros
     (Some (PArr [Fin 3; Fin 4])) = Ok tt /\
  @sk_validate empty_index
     (sk_record (_init_estimator new_estimator) zeros
                (Some (PArr [Fin 3; Fin 4])))
     distances (Some (PArr [Fin 3; Fin 4])) = Ok tt /\
  exists fitted h',
    @fit empty_index new_estimator 0 (Some 1) training_store
    = (Ok tt, fitted, h') /\
    let after := (@kneighbors empty_index fitted None None true h').2 in
    (exists est,
       _estimator after = Some est /\ sk_fit_X est = Some distances) /\
    _fitted_with_distances after = Some true /\
    (@kneighbors empty_index after None None true h').2 = after.
Proof.
  intros X zeros distances.
  assert (H0 : training_store !! 0%nat = Some X) by apply lookup_insert_eq.
  assert (H1 : training_store !! 1%nat = Some (PArr [Fin 3; Fin 4])).
  { unfold training_store. rewrite lookup_insert_ne by lia.
    apply lookup_singleton_eq. }
  split; [reflexivity|]. split; [exact H0|]. split; [exact H1|].
  split; [reflexivity|]. split; [reflexivity|].
  exact (@self_query_after_fit_uses_real_distances empty_index new_estimator
           0%nat 1%nat _ _ constant_metric training_store None true
           eq_refl H0 H1 eq_refl eq_refl).
Defined.

Lemma outlier_response_names_samples_without_neighbors_witness :
  outlier_response new_estimator = None /\
  exists index,
    _outlier_response new_estimator [[1%nat]; []; [0%nat]; []]
    = Raise (ValueError no_neighbors_message index) /\
    forall i, i ∈ index <-> [[1%nat]; []; [0%nat]; []] !! i = Some [].
Proof.
  split; [reflexivity|].
  exact (outlier_response_names_samples_without_neighbors new_estimator
           [[1%nat]; []; [0%nat]; []] eq_refl).
Defined.

(** A query hook that finds one neighbor for the first sample and none
    for the second. *)
Definition second_sample_isolated
  : Estimator -> pyobj -> heap -> result (matrix * list (list nat)) :=
  fun _ _ _ => Ok ([[Fin 1]; []], [[0%nat]; []]).

Definition distance_regressor : Estimator :=
  __init__ (Some 3%nat) None distance "auto" 30 (metric_fn constant_metric)
           None None.

Definition three_targets : FDataGrid :=
  {| grid_points := [[Fin 0]];
     data_matrix := [[[Fin 1]]; [[Fin 5]]; [[Fin 7]]];
     domain_range := None; interpolation := None |}.

Lemma has_zero_nonzero (a : R) : a <> 0%R -> has_zero [Fin a] = false.
Proof.
  intros Ha. change (has_zero [Fin a]) with (xeqb (Fin a) (Fin 0) || false).
  by rewrite xeqb_fin_ne.
Qed.

Lemma distance_weighted_prediction_is_exact_match_witness :
  let h : heap := {[ 5%nat := PArr ([Fin 2] ++ Fin 0 :: [Fin 3]) ]} in
  weights distance_regressor = distance /\
  h !! 5%nat = Some (PArr ([Fin 2] ++ Fin 0 :: [Fin 3])) /\
  has_zero [Fin 2] = false /\ has_zero [Fin 3] = false /\
  data_matrix three_targets
  = (inj <$> [[[1%R]]]) ++ inj [[5%R]] :: (inj <$> [[[7%R]]]) /\
  length [[[1%R]]] = length [Fin 2] /\ length [[[7%R]]] = length [Fin 3] /\
  Forall (fun s : list (list R) => length <$> s = length <$> [[5%R]])
         ([[[1%R]]] ++ [[[7%R]]]) /\
  _prediction_from_neighbors distance_regressor three_targets 5%nat h
  = (Ok (with_data three_targets [inj [[5%R]]]),
     <[5%nat := PArr (indicator_weights ([Fin 2] ++ Fin 0 :: [Fin 3]))]> h).
Proof.
  intros h.
  assert (Hd : h !! 5%nat = Some (PArr ([Fin 2] ++ Fin 0 :: [Fin 3])))
    by apply lookup_singleton_eq.
  assert (H2 : has_zero [Fin 2] = false) by (apply has_zero_nonzero; lra).
  assert (H3 : has_zero [Fin 3] = false) by (apply has_zero_nonzero; lra).
  assert (Hs : Forall (fun s : list (list R) => length <$> s = length <$> [[5%R]])
                      ([[[1%R]]] ++ [[[7%R]]]))
    by (repeat constructor).
  split; [reflexivity|]. split; [exact Hd|]. split; [exact H2|].
  split; [exact H3|]. split; [reflexivity|]. split; [reflexivity|].
  split; [reflexivity|]. split; [exact Hs|].
  exact (distance_weighted_prediction_is_exact_match distance_regressor
           three_targets 5%nat h [Fin 2] [Fin 3] [[[1%R]]] [[[7%R]]] [[5%R]]
           eq_refl Hd H2 H3 eq_refl eq_refl eq_refl Hs).
Defined.

Definition fallback_target : FDataGrid :=
  {| grid_points := [[Fin 0]];
     data_matrix := [[[Fin 9]]];
     domain_range := None; interpolation := None |}.

Definition uniform_regressor : Estimator :=
  set__fit_y (Some 7%nat)
    (__init__ None (Some (Fin 1)) uniform "auto" 30 (metric_fn constant_metric)
              None (Some fallback_target)).

Lemma three_targets_grid :
  Forall (Forall (fun x => x <> NaN)) (grid_points three_targets).
Proof. repeat constructor. discriminate. Qed.

Lemma three_targets_codomain :
  Forall (fun s => codomain s = 1) (data_matrix three_targets).
Proof. repeat constructor. Qed.

Lemma functional_predict_uniform_batch_witness :
  let h : heap := {[ 7%nat := PFData three_targets ]} in
  weights uniform_regressor = uniform /\
  outlier_response uniform_regressor = Some fallback_target /\
  _fit_y uniform_regressor = Some (Some 7%nat) /\
  h !! 7%nat = Some (PFData three_targets) /\
  Forall (Forall (fun x => x <> NaN)) (grid_points three_targets) /\
  Forall (fun s => codomain s = 1) (data_matrix three_targets) /\
  grid_points fallback_target = grid_points three_targets /\
  data_matrix fallback_target <> [] /\
  dim_codomain fallback_target = 1 /\
  second_sample_isolated uniform_regressor (load 0%nat h) h
  = Ok ([[Fin 1]; []], [[0%nat]; []]) /\
  [[0%nat]; []] <> [] /\
  length [[Fin 1]; []] = length [[0%nat]; @nil nat] /\
  Forall (Forall (fun j => j < length (data_matrix three_targets)))
         [[0%nat]; []] /\
  exists pred,
    (_functional_predict second_sample_isolated uniform_regressor 0%nat h).1
    = Ok pred /\
    data_matrix pred
    = concat (block three_targets fallback_target <$> [[0%nat]; []]).
Proof.
  intros h.
  assert (Hly : h !! 7%nat = Some (PFData three_targets))
    by apply lookup_singleton_eq.
  assert (Hrn : data_matrix fallback_target <> []) by discriminate.
  assert (Hne : [[0%nat]; @nil nat] <> []) by discriminate.
  assert (Hv : Forall (Forall (fun j => j < length (data_matrix three_targets)))
                      [[0%nat]; []]).
  { repeat constructor. }
  split; [reflexivity|]. split; [reflexivity|]. split; [reflexivity|].
  split; [exact Hly|]. split; [exact three_targets_grid|].
  split; [exact three_targets_codomain|]. split; [reflexivity|].
  split; [exact Hrn|]. split; [reflexivity|].
  split; [reflexivity|]. split; [exact Hne|].
  split; [reflexivity|]. split; [exact Hv|].
  exact (functional_predict_uniform_batch second_sample_isolated
           uniform_regressor 0%nat 7%nat three_targets fallback_target h
           [[Fin 1]; []] [[0%nat]; []] 1
           eq_refl eq_refl eq_refl Hly three_targets_grid
           three_targets_codomain eq_refl Hrn eq_refl eq_refl Hne eq_refl Hv).
Defined.

(** The same regressor without an outlier response. *)
Definition strict_regressor : Estimator :=
  set__fit_y (Some 7%nat)
    (__init__ None (Some (Fin 1)) uniform "auto" 30 (metric_fn constant_metric)
              None None).

Lemma functional_predict_without_neighbors_raises_witness :
  let h : heap := {[ 7%nat := PFData three_targets ]} in
  weights strict_regressor = uniform /\
  outlier_response strict_regressor = None /\
  _fit_y strict_regressor = Some (Some 7%nat) /\
  h !! 7%nat = Some (PFData three_targets) /\
  Forall (Forall (fun x => x <> NaN)) (grid_points three_targets) /\
  Forall (fun s => codomain s = 1) (data_matrix three_targets) /\
  second_sample_isolated strict_regressor (load 0%nat h) h
  = Ok ([[Fin 1]; []], [[0%nat]; []]) /\
  length [[Fin 1]; []] = length [[0%nat]; @nil nat] /\
  Forall (Forall (fun j => j < length (data_matrix three_targets)))
         [[0%nat]; []] /\
  [] ∈ [[0%nat]; @nil nat] /\
  (_functional_predict second_sample_isolated strict_regressor 0%nat h).1
  = Raise (ValueError no_neighbors_message
             (np_where ((fun n => Nat.eqb (length n) 0)
                          <$> [[0%nat]; @nil nat]))).
Proof.
  intros h.
  assert (Hly : h !! 7%nat = Some (PFData three_targets))
    by apply lookup_singleton_eq.
  assert (Hv : Forall (Forall (fun j => j < length (data_matrix three_targets)))
                      [[0%nat]; []]).
  { repeat constructor. }
  assert (Hin : [] ∈ [[0%nat]; @nil nat]).
  { apply elem_of_cons. right. apply elem_of_cons. by left. }
  split; [reflexivity|]. split; [reflexivity|]. split; [reflexivity|].
  split; [exact Hly|]. split; [exact three_targets_grid|].
  split; [exact three_targets_codomain|]. split; [reflexivity|].
  split; [reflexivity|]. split; [exact Hv|]. split; [exact Hin|].
  exact (functional_predict_without_neighbors_raises second_sample_isolated
           strict_regressor 0%nat 7%nat three_targets h
           [[Fin 1]; []] [[0%nat]; []] 1
           eq_refl eq_refl eq_refl Hly three_targets_grid
           three_targets_codomain eq_refl eq_refl Hv Hin).
Defined.

Definition precomputed_estimator : Estimator :=
  __init__ (Some 1%nat) None uniform "auto" 30 precomputed None None.

(** A store with a two by two matrix of distances and two targets. *)
Definition distance_store : heap :=
  <[0%nat := PMat [[Fin 0; Fin 1]; [Fin 1; Fin 0]]]>
    {[ 1%nat := PArr [Fin 3; Fin 4] ]}.

Lemma fit_precomputed_uses_the_matrix_itself_witness :
  metric precomputed_estimator = precomputed /\
  is_fdata (Some 1%nat) distance_store = false /\
  @sk_validate empty_index (_init_estimator precomputed_estimator)
     (as_matrix (load 0%nat distance_store))
     (load_opt (Some 1%nat) distance_store) = Ok tt /\
  exists self',
    @fit empty_index precomputed_estimator 0 (Some 1) distance_store
    = (Ok tt, self', distance_store) /\
    _fit_X self' = _fit_X precomputed_estimator /\
    _fit_y self' = _fit_y precomputed_estimator /\
    (exists est, _estimator self' = Some est /\
                 sk_fit_X est = Some (as_matrix (load 0%nat distance_store))) /\
    @_refit_with_distances empty_index self' distance_store = (Ok tt, self') /\
    (forall x h2, _X_to_distances self' x h2 = Ok (as_matrix (load x h2))).
Proof.
  assert (H0 : distance_store !! 0%nat
               = Some (PMat [[Fin 0; Fin 1]; [Fin 1; Fin 0]]))
    by apply lookup_insert_eq.
  assert (H1 : distance_store !! 1%nat = Some (PArr [Fin 3; Fin 4])).
  { unfold distance_store. rewrite lookup_insert_ne by lia.
    apply lookup_singleton_eq. }
  assert (Hy : is_fdata (Some 1%nat) distance_store = false).
  { unfold is_fdata. by rewrite H1. }
  assert (Hv : @sk_validate empty_index (_init_estimator precomputed_estimator)
                 (as_matrix (load 0%nat distance_store))
                 (load_opt (Some 1%nat) distance_store) = Ok tt).
  { unfold load, load_opt. cbn [mbind option_bind]. rewrite H0, H1.
    reflexivity. }
  split; [reflexivity|]. split; [exact Hy|]. split; [exact Hv|].
  exact (proj1 (@fit_precomputed_uses_the_matrix_itself empty_index
                  precomputed_estimator 0%nat (Some 1%nat) distance_store
                  eq_refl Hy) Hv).
Defined.



End NeighborsFacts.

(** *** The sample generators *)

Module GeneratorsFacts.
Import Generators.

Lemma linspace_length start stop num : length (linspace start stop num) = num.
Proof.
  unfold linspace. destruct (Nat.ltb 1 num); unfold set_last;
    rewrite ?length_insert, length_fmap, length_seq; reflexivity.
Qed.

Section Validation.
Context `{RandomSource}.

(** X17. [euler_maruyama] rejects, with a [ValueError] and without
    drawing from the generator, an initial-condition function given
    without [n_samples] (the function is not called) and an array of
    initial values with three axes. *)
Theorem euler_maruyama_rejects_initial_conditions
    g (t : tensor) n_grid_points drift diffusion start stop dim_noise
    random_state :
  euler_maruyama (ICGenerator g) n_grid_points drift diffusion None
                 start stop dim_noise random_state
  = (Raise (ValueError invalid_generator_message []),
     validate_random_state random_state) /\
  euler_maruyama (ICArray (Arr3 t)) n_grid_points drift diffusion None
                 start stop dim_noise random_state
  = (Raise (ValueError invalid_flat_message []),
     validate_random_state random_state).
Proof. split; reflexivity. Qed.



End Validation.

Section Broadcasting.

Lemma stretch_self {A} (l : list A) : stretch (length l) l = l.
Proof. by destruct l as [|x [|y l]]. Qed.

Lemma bdim_refl n : bdim n n = Ok n.
Proof. unfold bdim. by rewrite Nat.eqb_refl. Qed.

Lemma bdim_one_r n : bdim n 1 = Ok n.
Proof.
  unfold bdim. destruct (Nat.eqb n 1) eqn:E; [|reflexivity].
  by apply Nat.eqb_eq in E as ->.
Qed.

Lemma bdim_one_l n : bdim 1 n = Ok n.
Proof.
  unfold bdim. destruct (Nat.eqb 1 n) eqn:E; [|reflexivity].
  by apply Nat.eqb_eq in E as <-.
Qed.

Lemma mapM_ok {A B} (f : A -> result B) (g : A -> B) (l : list A) :
  (forall x, x ∈ l -> f x = Ok (g x)) -> mapM f l = Ok (g <$> l).
Proof.
  induction l as [|x l IH]; intros Hf; [reflexivity|].
  simpl. rewrite Hf by (apply elem_of_cons; by left). simpl.
  rewrite IH; [reflexivity|].
  intros y Hy. apply Hf, elem_of_cons. by right.
Qed.

Lemma zip_with_replicate_right {A B C} (f : A -> B -> C) (l : list A) (c : B) :
  zip_with f l (replicate (length l) c) = (fun x => f x c) <$> l.
Proof. induction l as [|x l IH]; simpl; [reflexivity|]. f_equal. exact IH. Qed.

Lemma zip_with_replicate_left {A B C} (f : A -> B -> C) (c : A) (l : list B) :
  zip_with f (replicate (length l) c) l = f c <$> l.
Proof. induction l as [|x l IH]; simpl; [reflexivity|]. f_equal. exact IH. Qed.

Lemma broadcast1_scalar_r op (u : vector) (c : xreal) :
  broadcast1 op u [c] = Ok ((fun x => op x c) <$> u).
Proof.
  unfold broadcast1. simpl. rewrite bdim_one_r. simpl.
  rewrite stretch_self. simpl. by rewrite zip_with_replicate_right.
Qed.

Lemma broadcast1_scalar_l op (c : xreal) (v : vector) :
  broadcast1 op [c] v = Ok (op c <$> v).
Proof.
  unfold broadcast1. simpl. rewrite bdim_one_l. simpl.
  rewrite stretch_self. by rewrite zip_with_replicate_left.
Qed.

Lemma broadcast1_same op (u v : vector) :
  length u = length v -> broadcast1 op u v = Ok (zip_with op u v).
Proof.
  intros Hl. unfold broadcast1. rewrite Hl, bdim_refl. simpl.
  rewrite stretch_self. rewrite <- Hl, stretch_self. reflexivity.
Qed.

Lemma broadcast2_scalar_r op (m : matrix) (c : xreal) :
  broadcast2 op m [[c]]
  = Ok ((fun r : vector => (fun x => op x c) <$> r) <$> m).
Proof.
  unfold broadcast2. simpl. rewrite bdim_one_r. simpl.
  rewrite stretch_self.
  assert (Hz : zip m (replicate (length m) [c]) = (fun r => (r, [c])) <$> m)
    by apply zip_with_replicate_right.
  rewrite Hz.
  rewrite (mapM_ok _ (fun p : vector * vector => (fun x => op x c) <$> p.1)).
  - f_equal. rewrite <- list_fmap_compose. reflexivity.
  - intros p Hp. apply list_elem_of_fmap in Hp as (r & -> & _). simpl.
    apply broadcast1_scalar_r.
Qed.

Lemma broadcast2_scalar_l op (c : xreal) (m : matrix) :
  broadcast2 op [[c]] m = Ok ((fun r : vector => op c <$> r) <$> m).
Proof.
  unfold broadcast2. simpl. rewrite bdim_one_l. simpl.
  rewrite stretch_self.
  assert (Hz : zip (replicate (length m) [c]) m = (fun r => ([c], r)) <$> m)
    by apply zip_with_replicate_left.
  rewrite Hz.
  rewrite (mapM_ok _ (fun p : vector * vector => op c <$> p.2)).
  - f_equal. rewrite <- list_fmap_compose. reflexivity.
  - intros p Hp. apply list_elem_of_fmap in Hp as (r & -> & _). simpl.
    apply broadcast1_scalar_l.
Qed.

Lemma broadcast2_same op (a b : matrix) :
  Forall2 (fun r r' : vector => length r = length r') a b ->
  broadcast2 op a b = Ok (zip_with (zip_with op) a b).
Proof.
  intros Hs. unfold broadcast2.
  rewrite (Forall2_length _ _ _ Hs), bdim_refl. simpl.
  rewrite stretch_self. rewrite <- (Forall2_length _ _ _ Hs), stretch_self.
  induction Hs as [|r r' a b Hr _ IH]; [reflexivity|].
  simpl. rewrite (broadcast1_same op r r' Hr). simpl. rewrite IH. reflexivity.
Qed.

End Broadcasting.

Section Assignment.
Context `{RandomSource}.






End Assignment.

(** *** The sinusoidal process *)

Section Sinusoid.
Context `{RandomSource}.

Lemma advance_advance a b rs : advance b (advance a rs) = advance (a + b) rs.
Proof. unfold advance. simpl. f_equal. lia. Qed.

(** A matrix of variates is filled row by row from the stream. *)
Lemma standard_normal2_rows n m rs :
  standard_normal2 n m rs
  = ((fun i => (fun k => Fin (variates rs (cursor rs + (i * m + k)))) <$> seq 0 m)
       <$> seq 0 n,
     advance (n * m) rs).
Proof.
  revert rs. induction n as [|n IH]; intros rs.
  - simpl. f_equal. destruct rs as [v c]. unfold advance. simpl. f_equal. lia.
  - change (standard_normal2 (S n) m rs)
      with (let '(row, rs1) := standard_normal1 m rs in
            let '(rows, rs2) := standard_normal2 n m rs1 in (row :: rows, rs2)).
    unfold standard_normal1. rewrite IH. rewrite advance_advance.
    f_equal.
    change (seq 0 (S n)) with (0 :: seq 1 n).
    rewrite <- fmap_S_seq, fmap_cons, <- list_fmap_compose.
    f_equal.
    apply list_fmap_ext. intros _ i _. simpl.
    apply list_fmap_ext. intros _ k _. simpl. do 2 f_equal. lia.
Qed.

Lemma normal1_ok loc scale n rs :
  negative scale = false ->
  normal1 loc scale n rs
  = (Ok ((fun k => xadd loc (xmul scale (Fin (variates rs (cursor rs + k)))))
           <$> seq 0 n),
     advance n rs).
Proof.
  intros Hs. unfold normal1, standard_normal1. rewrite Hs.
  by rewrite <- list_fmap_compose.
Qed.

Lemma normal2_ok loc scale n m rs :
  negative scale = false ->
  normal2 loc scale n m rs
  = (Ok ((fun i =>
            (fun k =>
               xadd loc (xmul scale (Fin (variates rs (cursor rs + (i * m + k))))))
              <$> seq 0 m) <$> seq 0 n),
     advance (n * m) rs).
Proof.
  intros Hs. unfold normal2. rewrite Hs, standard_normal2_rows.
  f_equal. f_equal. rewrite <- list_fmap_compose.
  apply list_fmap_ext. intros _ i _. simpl.
  by rewrite <- list_fmap_compose.
Qed.

(** A grid between finite ends has finite points. *)
Lemma linspace_finite (a b : R) (N : nat) :
  exists ts : list R, linspace (Fin a) (Fin b) N = Fin <$> ts /\ length ts = N.
Proof.
  unfold linspace. cbv zeta.
  assert (Hstep : exists s : R,
             (if Nat.ltb 0 (N - 1)
              then xdiv (xsub (Fin b) (Fin a)) (xnat (N - 1))
              else xsub (Fin b) (Fin a)) = Fin s).
  { destruct (Nat.ltb 0 (N - 1)) eqn:E.
    - apply Nat.ltb_lt in E. eexists. unfold xsub, xnat. simpl xneg. simpl xadd.
      apply xdiv_fin. apply not_0_INR. lia.
    - eexists. reflexivity. }
  destruct Hstep as [s ->].
  assert (Hy : (fun i => xadd (xmul (xnat i) (Fin s)) (Fin a)) <$> seq 0 N
               = Fin <$> ((fun i => (INR i * s + a)%R) <$> seq 0 N)).
  { rewrite <- list_fmap_compose. reflexivity. }
  rewrite Hy.
  destruct (Nat.ltb 1 N).
  - exists (<[pred N := b]> ((fun i => (INR i * s + a)%R) <$> seq 0 N)).
    unfold set_last. rewrite !length_fmap, length_seq, list_fmap_insert.
    split; [reflexivity|].
    by rewrite length_insert, length_fmap, length_seq.
  - eexists. split; [reflexivity|]. by rewrite length_fmap, length_seq.
Qed.

(** A single row against a matrix whose rows are as long. *)
Lemma broadcast2_row_l op (u : vector) (m : matrix) :
  Forall (fun r : vector => length r = length u) m ->
  broadcast2 op [u] m = Ok ((fun r : vector => zip_with op u r) <$> m).
Proof.
  intros Hm. unfold broadcast2. simpl. rewrite bdim_one_l. simpl.
  rewrite stretch_self.
  assert (Hz : zip (replicate (length m) u) m = (fun r => (u, r)) <$> m)
    by apply zip_with_replicate_left.
  rewrite Hz.
  rewrite (mapM_ok _ (fun p : vector * vector => zip_with op p.1 p.2)).
  - f_equal. rewrite <- list_fmap_compose. reflexivity.
  - intros p Hp. apply list_elem_of_fmap in Hp as (r & -> & Hr). simpl.
    apply broadcast1_same. rewrite Forall_forall in Hm. symmetry. by apply Hm.
Qed.

Lemma zip_with_fmap_both {A B C D} (h : B -> C -> D) (f : A -> B) (g : A -> C)
    (l : list A) :
  zip_with h (f <$> l) (g <$> l) = (fun x => h (f x) (g x)) <$> l.
Proof. induction l as [|a l IH]; simpl; [reflexivity|]. f_equal. exact IH. Qed.

(** Row [i] of a diagonal matrix against a column picks entry [i]. *)
Lemma diagonal_row_before (a : R) (i : nat) (vals : list R) (off : nat) :
  i < off ->
  xsum (zip_with xmul
          ((fun j => if Nat.eqb i j then Fin a else Fin 0)
             <$> seq off (length vals))
          (Fin <$> vals)) = Fin 0.
Proof.
  revert off. induction vals as [|v vals IH]; intros off Hi; [reflexivity|].
  cbn [length seq fmap list_fmap zip_with].
  change (xsum (?x :: ?l)) with (xadd x (xsum l)).
  rewrite (IH (S off)) by lia.
  destruct (Nat.eqb_spec i off) as [->|_]; [lia|].
  simpl. f_equal. lra.
Qed.

Lemma diagonal_row_at (a v : R) (i : nat) (vals : list R) (off : nat) :
  off <= i -> vals !! (i - off) = Some v ->
  xsum (zip_with xmul
          ((fun j => if Nat.eqb i j then Fin a else Fin 0)
             <$> seq off (length vals))
          (Fin <$> vals)) = Fin (a * v).
Proof.
  revert off. induction vals as [|v0 vals IH]; intros off Hi Hv; [done|].
  cbn [length seq fmap list_fmap zip_with].
  change (xsum (?x :: ?l)) with (xadd x (xsum l)).
  destruct (Nat.eqb_spec i off) as [->|Hne].
  - rewrite Nat.sub_diag in Hv. simpl in Hv. injection Hv as ->.
    rewrite diagonal_row_before by lia. simpl. f_equal. lra.
  - replace (i - off) with (S (i - S off)) in Hv by lia. simpl in Hv.
    rewrite (IH (S off)) by (lia || done). simpl. f_equal. lra.
Qed.

Lemma normal1_at loc scale n a rs :
  negative scale = false ->
  normal1 loc scale n (advance a rs)
  = (Ok ((fun k => xadd loc (xmul scale (Fin (variates rs (cursor rs + (a + k))))))
           <$> seq 0 n),
     advance (a + n) rs).
Proof.
  intros Hs. rewrite normal1_ok, advance_advance by done. f_equal. f_equal.
  apply list_fmap_ext. intros _ k _. simpl. by rewrite Nat.add_assoc.
Qed.

Lemma normal2_at loc scale n m a rs :
  negative scale = false ->
  normal2 loc scale n m (advance a rs)
  = (Ok ((fun i =>
            (fun k =>
               xadd loc
                 (xmul scale (Fin (variates rs (cursor rs + (a + (i * m + k)))))))
              <$> seq 0 m) <$> seq 0 n),
     advance (a + n * m) rs).
Proof.
  intros Hs. rewrite normal2_ok, advance_advance by done. f_equal. f_equal.
  apply list_fmap_ext. intros _ i _. simpl.
  apply list_fmap_ext. intros _ k _. simpl.
  by replace (cursor rs + a + (i * m + k)) with (cursor rs + (a + (i * m + k)))
    by lia.
Qed.

Lemma nd_mul_scalar_vector (c : xreal) (v : vector) :
  nd_mul (Arr0 c) (Arr1 v) = Ok (Arr1 (xmul c <$> v)).
Proof.
  unfold nd_mul, nd_binop. cbn [ndim Nat.max to1].
  by rewrite broadcast1_scalar_l.
Qed.

Lemma nd_add_vector_matrix (u : vector) (m : matrix) :
  Forall (fun r : vector => length r = length u) m ->
  nd_add (Arr1 u) (Arr2 m)
  = Ok (Arr2 ((fun r : vector => zip_with xadd u r) <$> m)).
Proof.
  intros Hm. unfold nd_add, nd_binop. cbn [ndim Nat.max to2].
  by rewrite broadcast2_row_l.
Qed.

Lemma matmul_ok (a b : matrix) :
  Forall (fun row : vector => length row = length b) a ->
  matmul a b
  = Ok ((fun row : vector =>
           (fun j => xsum (zip_with (fun x (brow : vector) =>
                                       xmul x (default (Fin 0) (brow !! j)))
                                    row b))
             <$> seq 0 (length (default [] (head b))))
          <$> a).
Proof.
  intros Ha. unfold matmul.
  assert (Hc : forallb (fun row : vector => Nat.eqb (length row) (length b)) a
               = true).
  { apply forallb_forall. intros row Hrow. apply Nat.eqb_eq.
    rewrite Forall_forall in Ha. apply Ha. by apply list_elem_of_In. }
  by rewrite Hc.
Qed.

(** Draw number [m] of the generator, moved to [loc] and scaled. *)
Definition draw (rs : RandomState) (loc scale : xreal) (m : nat) : xreal :=
  xadd loc (xmul scale (Fin (variates rs (cursor rs + m)))).

(** The sines before the amplitudes are applied, one row per phase. *)
Definition sines (omega : xreal) (t phases : vector) : matrix :=
  (fun ph => (fun x => xsin (xadd (xmul omega x) (xmul ph (Fin 1)))) <$> t)
    <$> phases.

(** Entry [(i, k)] of the product of [diag amplitudes] with [s]. *)
Definition diagonal_product (amplitudes : vector) (s : matrix) (i k : nat)
  : xreal :=
  xsum (zip_with (fun x (brow : vector) => xmul x (default (Fin 0) (brow !! k)))
          ((fun j => if Nat.eqb i j then default (Fin 0) (amplitudes !! i)
                     else Fin 0) <$> seq 0 (length amplitudes))
          s).

(** When no standard deviation is negative and the period is not zero,
    the function returns, whatever the sizes: the shapes always agree. *)
Lemma sinusoid_run n nf start stop period pm ps am sa es rsl omega :
  negative sa = false -> negative ps = false -> negative es = false ->
  float_div (xmul (Fin 2) (Fin PI)) period = Ok omega ->
  let rs := validate_random_state rsl in
  let t := linspace start stop nf in
  let amplitudes := (fun i => draw rs am sa i) <$> seq 0 n in
  let phases := (fun i => draw rs pm ps (n + i)) <$> seq 0 n in
  make_sinusoidal_process n nf start stop period pm ps am sa es rsl
  = (Ok {| grid_points := [t];
           data_matrix :=
             (fun i =>
                (fun k =>
                   [xadd (diagonal_product amplitudes (sines omega t phases) i k)
                         (draw rs (Fin 0) es (n + n + (i * nf + k)))])
                  <$> seq 0 nf) <$> seq 0 n;
           domain_range := None; interpolation := None |},
     advance (n + n + n * nf) rs).
Proof.
  intros Hsa Hps Hes Hdiv rs t amplitudes phases.
  unfold make_sinusoidal_process. fold rs. cbv zeta.
  assert (H0 : rs = advance 0 rs).
  { destruct rs as [v c]. unfold advance. simpl. f_equal. lia. }
  rewrite H0 at 1. rewrite normal1_at by done. cbv beta iota.
  rewrite normal1_at by done. cbv beta iota.
  rewrite normal2_at by done. cbv beta iota.
  change (0 + n) with n.
  f_equal.
  rewrite Hdiv. cbn [mbind result_bind].
  rewrite nd_mul_scalar_vector. cbn [mbind result_bind].
  fold t.
  assert (Hamp : (fun k => xadd am (xmul sa (Fin (variates rs (cursor rs + (0 + k))))))
                   <$> seq 0 n = amplitudes) by reflexivity.
  assert (Hph : (fun k => xadd pm (xmul ps (Fin (variates rs (cursor rs + (n + k))))))
                  <$> seq 0 n = phases) by reflexivity.
  rewrite Hamp, Hph.
  assert (Hlt : length t = nf) by apply linspace_length.
  rewrite nd_add_vector_matrix.
  2:{ unfold outer, ones1. apply Forall_fmap, Forall_forall. intros ph _.
      simpl. by rewrite !length_fmap, length_replicate, Hlt. }
  cbn [mbind result_bind]. cbv zeta.
  assert (Hs : (fun r : vector => xsin <$> r)
                 <$> ((fun r : vector => zip_with xadd (xmul omega <$> t) r)
                        <$> outer phases (ones1 nf))
               = sines omega t phases).
  { unfold outer, ones1, sines. rewrite <- !list_fmap_compose.
    apply list_fmap_ext. intros _ ph _. simpl.
    rewrite fmap_replicate.
    replace nf with (length (xmul omega <$> t)) by (by rewrite length_fmap).
    rewrite zip_with_replicate_right, <- !list_fmap_compose. reflexivity. }
  rewrite Hs.
  assert (Hla : length amplitudes = n)
    by (unfold amplitudes; by rewrite length_fmap, length_seq).
  assert (Hlp : length phases = n)
    by (unfold phases; by rewrite length_fmap, length_seq).
  rewrite matmul_ok.
  2:{ unfold diag. apply Forall_fmap, Forall_forall. intros i _. simpl.
      unfold sines. by rewrite !length_fmap, length_seq, Hla, Hlp. }
  cbn [mbind result_bind].
  assert (Hp : (fun row : vector =>
                  (fun j => xsum (zip_with (fun x (brow : vector) =>
                                              xmul x (default (Fin 0) (brow !! j)))
                                           row (sines omega t phases)))
                    <$> seq 0 (length (default [] (head (sines omega t phases)))))
                 <$> diag amplitudes
               = (fun i => (fun k => diagonal_product amplitudes
                                       (sines omega t phases) i k)
                             <$> seq 0 nf) <$> seq 0 n).
  { unfold diag. rewrite <- list_fmap_compose, Hla.
    apply list_fmap_ext. intros idx i Hi. simpl.
    apply lookup_seq in Hi as [_ Hi].
    assert (Hh : length (default [] (head (sines omega t phases))) = nf).
    { unfold sines. destruct phases as [|ph phases']; [simpl in Hlp; lia|].
      simpl. by rewrite length_fmap. }
    rewrite Hh. unfold diagonal_product. by rewrite Hla. }
  rewrite Hp.
  rewrite broadcast2_same.
  2:{ apply Forall2_fmap, Forall_Forall2_diag, Forall_forall. intros i _.
      by rewrite !length_fmap. }
  cbn [mbind result_bind mret result_ret].
  rewrite zip_with_fmap_both, <- list_fmap_compose.
  f_equal. f_equal.
  apply list_fmap_ext. intros _ i _. simpl.
  rewrite zip_with_fmap_both, <- list_fmap_compose. reflexivity.
Qed.

Lemma negative_fin (s : R) : (0 <= s)%R -> negative (Fin s) = false.
Proof. intros Hs. unfold negative. destruct (Rlt_dec s 0); [lra|reflexivity]. Qed.

Lemma float_div_fin (x p : R) (period : scalar) :
  p <> 0%R -> scalar_value period = Fin p ->
  float_div (Fin x) period = Ok (Fin (x / p)).
Proof.
  intros Hp Hv. unfold float_div. destruct period as [y|y]; simpl in Hv; subst y.
  - destruct (Req_dec_T p 0); [done|]. by rewrite xdiv_fin.
  - by rewrite xdiv_fin.
Qed.

(** X22. With finite arguments, [start <= stop], a period other than
    zero (a Python number or a numpy one), standard deviations that are
    not negative and at least one grid point,
    [make_sinusoidal_process] returns [n_samples] curves over
    [linspace(start, stop, n_features)], takes
    [2 * n_samples + n_samples * n_features] variates from the generator,
    and curve [i] at grid point [t_k] is
    [alpha_i * sin(2 pi / period * t_k + phi_i) + eps_ik], where
    [alpha_i] comes from draw [i], [phi_i] from draw [n_samples + i] and
    the noise from draw [2 n_samples + i * n_features + k]: the diagonal
    matrix product applies each amplitude to its own curve only. *)
Theorem sinusoidal_process_closed_form n nf (a b p pm ps am sa es : R)
    (period : scalar) rsl :
  0 < nf -> (a <= b)%R -> p <> 0%R -> scalar_value period = Fin p ->
  (0 <= ps)%R -> (0 <= sa)%R -> (0 <= es)%R ->
  let rs := validate_random_state rsl in
  let z m := variates rs (cursor rs + m) in
  exists fd,
    make_sinusoidal_process n nf (Fin a) (Fin b) period (Fin pm) (Fin ps)
      (Fin am) (Fin sa) (Fin es) rsl
    = (Ok fd, advance (n + n + n * nf) rs) /\
    grid_points fd = [linspace (Fin a) (Fin b) nf] /\
    length (data_matrix fd) = n /\
    forall i k, i < n -> k < nf ->
      exists t : R,
        linspace (Fin a) (Fin b) nf !! k = Some (Fin t) /\
        data_matrix fd !! i ≫= (.!! k)
        = Some [Fin ((am + sa * z i)
                     * sin (2 * PI / p * t + (pm + ps * z (n + i)))
                     + es * z (n + n + (i * nf + k)))].
Proof.
  intros Hnf Hab Hp Hperiod Hps Hsa Hes rs z.
  destruct (linspace_finite a b nf) as (ts & Hts & Hlen).
  eexists. split.
  { apply sinusoid_run; try by apply negative_fin.
    cbn [xmul]. by apply float_div_fin. }
  fold rs. cbn [grid_points data_matrix].
  split; [reflexivity|].
  split; [by rewrite length_fmap, length_seq|].
  intros i k Hi Hk.
  destruct (lookup_lt_is_Some_2 ts k) as [t Ht]; [lia|].
  exists t. split; [by rewrite Hts, list_lookup_fmap, Ht|].
  rewrite list_lookup_fmap, lookup_seq_lt by done. cbn [fmap option_fmap option_map mbind option_bind].
  rewrite list_lookup_fmap, lookup_seq_lt by done. cbn [fmap option_fmap option_map].
  change (0 + i) with i. change (0 + k) with k.
  f_equal. f_equal.
  set (amplitudes := (fun i => draw rs (Fin am) (Fin sa) i) <$> seq 0 n).
  set (phases := (fun i => draw rs (Fin pm) (Fin ps) (n + i)) <$> seq 0 n).
  set (vals := (fun j => sin (2 * PI / p * t + (pm + ps * z (n + j)) * 1))
                 <$> seq 0 n).
  assert (Hla : length amplitudes = n)
    by (unfold amplitudes; by rewrite length_fmap, length_seq).
  assert (Hlv : length vals = n)
    by (unfold vals; by rewrite length_fmap, length_seq).
  assert (Hai : amplitudes !! i = Some (Fin (am + sa * z i))).
  { unfold amplitudes. by rewrite list_lookup_fmap, lookup_seq_lt. }
  assert (Hcol : (fun brow : vector => default (Fin 0) (brow !! k))
                   <$> sines (Fin (2 * PI / p)) (linspace (Fin a) (Fin b) nf) phases
                 = Fin <$> vals).
  { unfold sines, phases, vals. rewrite <- !list_fmap_compose.
    apply list_fmap_ext. intros _ j _. simpl.
    by rewrite Hts, !list_lookup_fmap, Ht. }
  assert (Hprod : diagonal_product amplitudes
                    (sines (Fin (2 * PI / p)) (linspace (Fin a) (Fin b) nf) phases)
                    i k
                  = Fin ((am + sa * z i)
                         * sin (2 * PI / p * t + (pm + ps * z (n + i)) * 1))).
  { unfold diagonal_product. rewrite Hai. cbn [default from_option Datatypes.id].
    rewrite <- (zip_with_fmap_r xmul), Hcol.
    replace (length amplitudes) with (length vals) by (by rewrite Hla, Hlv).
    apply diagonal_row_at; [lia|].
    rewrite Nat.sub_0_r. unfold vals.
    by rewrite list_lookup_fmap, lookup_seq_lt. }
  rewrite Hprod. unfold draw. cbn [xmul xadd]. fold (z (n + n + (i * nf + k))).
  f_equal.
  rewrite Rmult_1_r. lra.
Qed.

(** X23. What [make_sinusoidal_process] rejects, and when. A negative
    standard deviation raises numpy's [ValueError] at the draw that uses
    it, so the draws before it have already been taken from the
    generator: none for [amplitude_std], [n_samples] variates for
    [phase_std], [2 * n_samples] for [error_std]. The period is only
    looked at after the three draws: a period that is a Python zero
    raises [ZeroDivisionError] once all
    [2 * n_samples + n_samples * n_features] variates are consumed. *)
Theorem sinusoidal_process_rejections
    n nf start stop period pm ps am sa es rsl :
  let rs := validate_random_state rsl in
  let run := make_sinusoidal_process n nf start stop period pm ps am sa es rsl in
  (negative sa = true -> run = (Raise (ValueError "scale < 0" []), rs)) /\
  (negative sa = false -> negative ps = true ->
   run = (Raise (ValueError "scale < 0" []), advance n rs)) /\
  (negative sa = false -> negative ps = false -> negative es = true ->
   run = (Raise (ValueError "scale < 0" []), advance (n + n) rs)) /\
  (negative sa = false -> negative ps = false -> negative es = false ->
   period = PyFloat (Fin 0) ->
   run = (Raise ZeroDivisionError, advance (n + n + n * nf) rs)).
Proof.
  intros rs run.
  assert (H0 : rs = advance 0 rs).
  { destruct rs as [v c]. unfold advance. simpl. f_equal. lia. }
  unfold run, make_sinusoidal_process. fold rs. cbv zeta.
  repeat split.
  - intros Hsa. unfold normal1. by rewrite Hsa.
  - intros Hsa Hps. rewrite H0 at 1. rewrite normal1_at by done.
    cbv beta iota. unfold normal1. by rewrite Hps.
  - intros Hsa Hps Hes. rewrite H0 at 1. rewrite normal1_at by done.
    cbv beta iota. rewrite normal1_at by done. cbv beta iota.
    unfold normal2. by rewrite Hes.
  - intros Hsa Hps Hes ->. rewrite H0 at 1. rewrite normal1_at by done.
    cbv beta iota. rewrite normal1_at by done. cbv beta iota.
    rewrite normal2_at by done. cbv beta iota.
    f_equal. unfold float_div. by destruct (Req_dec_T 0 0).
Qed.

End Sinusoid.








(** A generator whose [m]-th variate is [m], and a source that always
    hands it out. *)
Definition counting_generator : RandomState :=
  {| variates := INR; cursor := 0 |}.

Definition counting_source : RandomSource :=
  {| global_generator := counting_generator;
     seeded_generator := fun _ => counting_generator |}.

Lemma sinusoidal_process_closed_form_witness :
  0 < 3 /\ (0 <= 1)%R /\ 1%R <> 0%R /\
  scalar_value (PyFloat (Fin 1)) = Fin 1 /\ (0 <= 1)%R /\
  let rs := @validate_random_state counting_source RSNone in
  let z m := variates rs (cursor rs + m) in
  exists fd,
    @make_sinusoidal_process counting_source 2 3 (Fin 0) (Fin 1)
      (PyFloat (Fin 1)) (Fin 0) (Fin 1) (Fin 1) (Fin 1) (Fin 1) RSNone
    = (Ok fd, advance (2 + 2 + 2 * 3) rs) /\
    grid_points fd = [linspace (Fin 0) (Fin 1) 3] /\
    length (data_matrix fd) = 2 /\
    forall i k, i < 2 -> k < 3 ->
      exists t : R,
        linspace (Fin 0) (Fin 1) 3 !! k = Some (Fin t) /\
        data_matrix fd !! i ≫= (.!! k)
        = Some [Fin ((1 + 1 * z i)
                     * sin (2 * PI / 1 * t + (0 + 1 * z (2 + i)))
                     + 1 * z (2 + 2 + (i * 3 + k)))].
Proof.
  assert (Hnf : 0 < 3) by lia.
  assert (Hab : (0 <= 1)%R) by lra.
  assert (Hp : 1%R <> 0%R) by lra.
  split; [exact Hnf|]. split; [exact Hab|]. split; [exact Hp|].
  split; [reflexivity|]. split; [exact Hab|].
  exact (@sinusoidal_process_closed_form counting_source 2 3 0 1 1 0 1 1 1 1
           (PyFloat (Fin 1)) RSNone Hnf Hab Hp eq_refl Hab Hab Hab).
Defined.

Lemma sinusoidal_process_rejections_witness :
  negative (Fin 1) = false /\
  @make_sinusoidal_process counting_source 2 3 (Fin 0) (Fin 1)
    (PyFloat (Fin 0)) (Fin 0) (Fin 1) (Fin 1) (Fin 1) (Fin 1) RSNone
  = (Raise ZeroDivisionError, advance (2 + 2 + 2 * 3) counting_generator).
Proof.
  assert (Hs : negative (Fin 1) = false) by (apply negative_fin; lra).
  split; [exact Hs|].
  exact (proj2 (proj2 (proj2
           (@sinusoidal_process_rejections counting_source 2 3 (Fin 0) (Fin 1)
              (PyFloat (Fin 0)) (Fin 0) (Fin 1) (Fin 1) (Fin 1) (Fin 1)
              RSNone)))
           Hs Hs Hs eq_refl).
Defined.

End GeneratorsFacts.
